(** * Herschel-Bulkley 2D constitutive law (PfemFluidDynamicsApplication)

    A shallow embedding of
    [custom_constitutive/fluid_laws/herschel_bulkley_2D_law.cpp].

    Numbers.  A C++ [double] is read as a real number: arithmetic is
    exact, and the operations of <cmath> that can leave the finite reals
    (a division by zero, [std::pow] at a pole or outside its domain,
    [std::sqrt] of a negative number) are partial.  Rounding and overflow
    of binary64 are outside this reading; [Binary64] runs the viscosity
    law on the kernel's binary64 numbers to show where overflow enters.

    Memory.  [Vector &] and [Matrix &] are references into buffers owned
    by the caller; they are locations of a store, so two references may
    name the same buffer. *)

From Stdlib Require Import Reals Lra Psatz String.
From Stdlib Require PrimFloat.
From stdpp Require Import base option list gmap.

Local Open Scope R_scope.

(** ** Results of fallible steps *)

Inductive Fault : Type :=
| NotFinite   (* an operation left the finite reals *)
| BadAccess.  (* a missing buffer or an index past its end *)

Inductive Result (A : Type) : Type :=
| Ok (a : A)
| Stuck (f : Fault).

Arguments Ok {A} a.
Arguments Stuck {A} f.

#[global] Instance Result_ret : MRet Result := fun A a => Ok a.

#[global] Instance Result_bind : MBind Result :=
  fun A B k r => match r with Ok a => k a | Stuck f => Stuck f end.

(** ** <cmath> over the reals *)

Abbreviation double := R.

(** [x / y] on doubles: infinite or NaN exactly when [y] is zero. *)
Definition fdiv (x y : double) : Result double :=
  if Req_dec_T y 0 then Stuck NotFinite else Ok (x / y).

(** [std::sqrt]: NaN below zero. *)
Definition std_sqrt (x : double) : Result double :=
  if Rle_dec 0 x then Ok (sqrt x) else Stuck NotFinite.

(** [std::exp]: defined everywhere. *)
Definition std_exp (x : double) : Result double := Ok (exp x).

(** [std::pow]: [exp (y * ln x)] on a positive base; at base zero the
    value is 0, 1 or a pole by the sign of the exponent; a negative base
    needs an integral exponent. *)
Definition std_pow (x y : double) : Result double :=
  if Rlt_dec 0 x then Ok (Rpower x y)
  else if Req_dec_T x 0 then
    (if Rlt_dec 0 y then Ok 0
     else if Req_dec_T y 0 then Ok 1
     else Stuck NotFinite)
  else
    (if Req_dec_T (IZR (Int_part y)) y then Ok (powerRZ x (Int_part y))
     else Stuck NotFinite).

(** ** Material properties *)

(** The variables of [pfem_fluid_dynamics_application_variables.h] that
    this law reads. *)
Inductive KratosVariable : Type :=
| DYNAMIC_VISCOSITY
| YIELD_SHEAR
| FLOW_INDEX
| ADAPTIVE_EXPONENT
| BULK_MODULUS.

#[global] Instance KratosVariable_eq_dec : EqDecision KratosVariable.
Proof. solve_decision. Defined.

(** [Properties]: the read-only lookup [rProperties[VARIABLE]]. *)
Definition Properties : Type := KratosVariable -> double.

(** ** The caller's store and [ConstitutiveLaw::Parameters] *)

(** What the base class [PfemFluidConstitutiveLaw] and the Kratos core
    give this law and this file does not define: the dense [Matrix], the
    fill of the tangent matrix for a given viscosity, and the two opaque
    arguments of [Check]. *)
Class PfemFluidConstitutiveLaw : Type := {
  Matrix : Type;
  EffectiveViscousConstitutiveMatrix2D : double -> Matrix -> Matrix;
  GeometryType : Type;
  ProcessInfo : Type
}.

(** The option flags tested by this law. *)
Inductive Flag : Type :=
| COMPUTE_CONSTITUTIVE_TENSOR.

Definition Flags : Type := Flag -> bool.

Definition Is (options : Flags) (f : Flag) : bool := options f.

(** A reference to a caller-owned buffer. *)
Abbreviation ref := positive.

(** [Parameters] holds the options, references to the strain vector, the
    stress vector and the constitutive matrix, and the properties, which
    it hands out as [const]. *)
Record Parameters : Type := {
  GetOptions : Flags;
  GetMaterialProperties : Properties;
  GetStrainVector : ref;
  GetStressVector : ref;
  GetConstitutiveMatrix : ref
}.

Section Store.
Context `{PfemFluidConstitutiveLaw}.

(** The buffers that exist, by reference. *)
Record Memory : Type := {
  vectors : gmap positive (list double);
  matrices : gmap positive Matrix
}.

(** Statements: they read and write the store and may get stuck. *)
Definition M (A : Type) : Type := Memory -> Result (A * Memory).

#[global] Instance M_ret : MRet M := fun A a m => Ok (a, m).

#[global] Instance M_bind : MBind M :=
  fun A B k c m => match c m with Ok (a, m') => k a m' | Stuck f => Stuck f end.

Definition lift {A : Type} (r : Result A) : M A :=
  fun m => match r with Ok a => Ok (a, m) | Stuck f => Stuck f end.

(** [v[i]] as a value. *)
Definition read (v : ref) (i : nat) : M double :=
  fun m => match vectors m !! v ≫= (fun l => l !! i) with
           | Some x => Ok (x, m)
           | None => Stuck BadAccess
           end.

(** [v[i] = x]. *)
Definition write (v : ref) (i : nat) (x : double) : M unit :=
  fun m => match vectors m !! v with
           | Some l =>
               if decide (i < length l)%nat
               then Ok (tt, {| vectors := <[v := <[i := x]> l]> (vectors m);
                               matrices := matrices m |})
               else Stuck BadAccess
           | None => Stuck BadAccess
           end.

(** A call that fills the matrix behind [c] in place. *)
Definition fill (c : ref) (f : Matrix -> Matrix) : M unit :=
  fun m => match matrices m !! c with
           | Some C => Ok (tt, {| vectors := vectors m;
                                  matrices := <[c := f C]> (matrices m) |})
           | None => Stuck BadAccess
           end.

End Store.

(** ** The viscosity law (lines 62-83) *)

(** Lines 131-134. *)
Definition GetEffectiveMaterialParameter
    (rParameters : Parameters) (rVariable : KratosVariable) : double :=
  GetMaterialProperties rParameters rVariable.

(** Lines 68-70. *)
Definition equivalent_strain_rate (e0 e1 e2 : double) : Result double :=
  std_sqrt (2 * e0 * e0 + 2 * e1 * e1 + 4 * e2 * e2).

(** Line 73. *)
Definition tolerance : double := 1e-8.

(** Lines 81-82, the [else] branch. *)
Definition regularized_viscosity
    (dynamic_viscosity yield_shear adaptive_exponent flow_index
     equivalent_strain_rate : double) : Result double :=
  ex ← std_exp (- adaptive_exponent * equivalent_strain_rate);
  let regularization := 1 - ex in
  pw ← std_pow equivalent_strain_rate (flow_index - 1);
  yt ← fdiv (regularization * yield_shear) equivalent_strain_rate;
  Ok (dynamic_viscosity * pw + yt).

(** Lines 74-83. *)
Definition viscosity_at
    (dynamic_viscosity yield_shear adaptive_exponent flow_index
     equivalent_strain_rate : double) : Result double :=
  if Rlt_dec equivalent_strain_rate tolerance
  then Ok (yield_shear * adaptive_exponent)
  else regularized_viscosity dynamic_viscosity yield_shear adaptive_exponent
         flow_index equivalent_strain_rate.

(** Lines 62-83: the value of [effective_dynamic_viscosity] when the
    strain vector holds [e0], [e1], [e2]. *)
Definition effective_dynamic_viscosity
    (rValues : Parameters) (e0 e1 e2 : double) : Result double :=
  let r_properties := GetMaterialProperties rValues in
  let dynamic_viscosity := GetEffectiveMaterialParameter rValues DYNAMIC_VISCOSITY in
  let yield_shear := GetEffectiveMaterialParameter rValues YIELD_SHEAR in
  let adaptive_exponent := r_properties ADAPTIVE_EXPONENT in
  let flow_index := r_properties FLOW_INDEX in
  rate ← equivalent_strain_rate e0 e1 e2;
  viscosity_at dynamic_viscosity yield_shear adaptive_exponent flow_index rate.

(** ** The stress and the tangent matrix (lines 85-96) *)

Section Law.
Context `{PfemFluidConstitutiveLaw}.

(** Lines 85-91, for the viscosity found above. *)
Definition write_stress_vector
    (rValues : Parameters) (effective_dynamic_viscosity : double) : M unit :=
  let r_strain_vector := GetStrainVector rValues in
  let r_stress_vector := GetStressVector rValues in
  t0 ← read r_strain_vector 0;
  t1 ← read r_strain_vector 1;
  let strain_trace := t0 + t1 in
  d0 ← read r_strain_vector 0;
  write r_stress_vector 0
    (2 * effective_dynamic_viscosity * (d0 - strain_trace / 3));;
  d1 ← read r_strain_vector 1;
  write r_stress_vector 1
    (2 * effective_dynamic_viscosity * (d1 - strain_trace / 3));;
  d2 ← read r_strain_vector 2;
  write r_stress_vector 2 (2 * effective_dynamic_viscosity * d2).

(** Lines 93-96. *)
Definition write_constitutive_matrix
    (rValues : Parameters) (effective_dynamic_viscosity : double) : M unit :=
  let r_options := GetOptions rValues in
  if Is r_options COMPUTE_CONSTITUTIVE_TENSOR
  then fill (GetConstitutiveMatrix rValues)
         (EffectiveViscousConstitutiveMatrix2D effective_dynamic_viscosity)
  else mret tt.

(** Lines 53-97. *)
Definition CalculateMaterialResponseCauchy (rValues : Parameters) : M unit :=
  let r_strain_vector := GetStrainVector rValues in
  e0 ← read r_strain_vector 0;
  e1 ← read r_strain_vector 1;
  e2 ← read r_strain_vector 2;
  viscosity ← lift (effective_dynamic_viscosity rValues e0 e1 e2);
  write_stress_vector rValues viscosity;;
  write_constitutive_matrix rValues viscosity.

End Law.

(** ** Check (lines 104-129) *)

(** What a thrown [Kratos::Exception] carries: the text streamed into it
    and the value streamed after the text. *)
Record Exception : Type := {
  what : string;
  shown : double
}.

(** A call returns or throws. *)
Inductive Outcome (A : Type) : Type :=
| Returns (a : A)
| Throws (e : Exception).

Arguments Returns {A} a.
Arguments Throws {A} e.

#[global] Instance Outcome_ret : MRet Outcome := fun A a => Returns a.

#[global] Instance Outcome_bind : MBind Outcome :=
  fun A B k o => match o with Returns a => k a | Throws e => Throws e end.

(** Modelled from the spec: the macro [KRATOS_ERROR_IF] comes from the
    Kratos core ([includes/exception.h], reached through
    [includes/checks.h]) and is not defined in this file.  A negative
    parameter is "reported as a descriptive failure naming the parameter
    and its invalid value", and the policy is "to surface immediately to
    the caller": when the condition holds, the macro throws an exception
    that carries what is streamed into it, and the statements after it do
    not run. *)
Definition KRATOS_ERROR_IF
    (conditional : bool) (text : string) (value : double) : Outcome unit :=
  if conditional then Throws {| what := text; shown := value |} else Returns tt.

(** [x < y] on doubles, as the [bool] of C++. *)
Definition Rltb (x y : double) : bool := if Rlt_dec x y then true else false.

Section Validation.
Context `{PfemFluidConstitutiveLaw}.

Definition Check
    (rMaterialProperties : Properties) (rElementGeometry : GeometryType)
    (rCurrentProcessInfo : ProcessInfo) : Outcome Z :=
  KRATOS_ERROR_IF (Rltb (rMaterialProperties DYNAMIC_VISCOSITY) 0)
    "Incorrect or missing DYNAMIC_VISCOSITY provided in process info for HerschelBulkley2DLaw: "
    (rMaterialProperties DYNAMIC_VISCOSITY);;
  KRATOS_ERROR_IF (Rltb (rMaterialProperties YIELD_SHEAR) 0)
    "Incorrect or missing YIELD_SHEAR provided in process info for HerschelBulkley2DLaw: "
    (rMaterialProperties YIELD_SHEAR);;
  KRATOS_ERROR_IF (Rltb (rMaterialProperties FLOW_INDEX) 0)
    "Incorrect or missing FLOW_INDEX provided in process info for HerschelBulkley2DLaw: "
    (rMaterialProperties FLOW_INDEX);;
  KRATOS_ERROR_IF (Rltb (rMaterialProperties ADAPTIVE_EXPONENT) 0)
    "Incorrect or missing ADAPTIVE_EXPONENT provided in process info for HerschelBulkley2DLaw: "
    (rMaterialProperties ADAPTIVE_EXPONENT);;
  KRATOS_ERROR_IF (Rltb (rMaterialProperties BULK_MODULUS) 0)
    "Incorrect or missing BULK_MODULUS provided in process info for HerschelBulkley2DLaw: "
    (rMaterialProperties BULK_MODULUS);;
  mret 0%Z.

End Validation.

(** The other members: lines 49, 51 and 99. *)
Definition WorkingSpaceDimension : nat := 2.

Definition GetStrainSize : nat := 3.

Definition Info : string := "HerschelBulkley2DLaw".

(** ** Inputs for worked cases *)

(** Modelled from the spec: the fill of the tangent matrix belongs to the
    base class and is not in this file.  The spec asks for a matrix
    "consistent with the stress formula's partial derivatives at fixed
    mu_eff"; this host returns those derivatives.  It is used for worked
    cases only; the general statements hold for every host. *)
Definition spec_host : PfemFluidConstitutiveLaw := {|
  Matrix := list (list double);
  EffectiveViscousConstitutiveMatrix2D := fun mu _ =>
    [ [4 * mu / 3; - (2 * mu / 3); 0];
      [- (2 * mu / 3); 4 * mu / 3; 0];
      [0; 0; 2 * mu] ];
  GeometryType := unit;
  ProcessInfo := unit
|}.

Definition properties_of (K ys n a bulk : double) : Properties :=
  fun v => match v with
           | DYNAMIC_VISCOSITY => K
           | YIELD_SHEAR => ys
           | FLOW_INDEX => n
           | ADAPTIVE_EXPONENT => a
           | BULK_MODULUS => bulk
           end.

(** A call whose strain vector is buffer 1, stress vector buffer 2 and
    constitutive matrix buffer 3. *)
Definition call_on (tangent : bool) (props : Properties) : Parameters := {|
  GetOptions := fun _ => tangent;
  GetMaterialProperties := props;
  GetStrainVector := 1%positive;
  GetStressVector := 2%positive;
  GetConstitutiveMatrix := 3%positive
|}.

Definition store_of (strain stress : list double) : @Memory spec_host := {|
  vectors := <[1%positive := strain]> (<[2%positive := stress]> ∅);
  matrices := <[3%positive := []]> ∅
|}.

(** The constitutive matrix exists whenever the call asks for it. *)
Definition matrix_ready `{PfemFluidConstitutiveLaw}
    (rValues : Parameters) (m : Memory) : Prop :=
  Is (GetOptions rValues) COMPUTE_CONSTITUTIVE_TENSOR = true ->
  is_Some (matrices m !! GetConstitutiveMatrix rValues).

(** ** What [Check] reports *)

#[global] Instance Rlt_decision (x y : double) : Decision (x < y) := Rlt_dec x y.

(** The variables in the order [Check] tests them. *)
Definition checked_variables : list KratosVariable :=
  [DYNAMIC_VISCOSITY; YIELD_SHEAR; FLOW_INDEX; ADAPTIVE_EXPONENT; BULK_MODULUS].

Definition variable_name (v : KratosVariable) : string :=
  match v with
  | DYNAMIC_VISCOSITY => "DYNAMIC_VISCOSITY"
  | YIELD_SHEAR => "YIELD_SHEAR"
  | FLOW_INDEX => "FLOW_INDEX"
  | ADAPTIVE_EXPONENT => "ADAPTIVE_EXPONENT"
  | BULK_MODULUS => "BULK_MODULUS"
  end.

(** The text of the error for a variable: its name between fixed words. *)
Definition error_text (v : KratosVariable) : string :=
  ("Incorrect or missing " ++ variable_name v
   ++ " provided in process info for HerschelBulkley2DLaw: ")%string.

(** The negative parameters, in the order of the tests. *)
Definition violations (rMaterialProperties : Properties) : list KratosVariable :=
  filter (fun v => rMaterialProperties v < 0) checked_variables.

(** An outcome reports the violation of [v]: it is an error that names
    [v] and shows its value. *)
Definition reports (o : Outcome Z) (rMaterialProperties : Properties)
    (v : KratosVariable) : Prop :=
  exists e, o = Throws e /\ what e = error_text v /\ shown e = rMaterialProperties v.

(** ** The regularized branch near rest *)

(** The value of the regularized branch tends to [l] as the strain rate
    tends to 0 from above. *)
Definition tends_to_at_rest (K ys a n l : double) : Prop :=
  forall eps, 0 < eps ->
  exists delta, 0 < delta /\
    forall rate, 0 < rate < delta ->
    exists mu, regularized_viscosity K ys a n rate = Ok mu /\ Rabs (mu - l) < eps.

(** A call that hands in buffer 1 both as strain vector and as stress
    vector. *)
Definition call_in_place (tangent : bool) (props : Properties) : Parameters := {|
  GetOptions := fun _ => tangent;
  GetMaterialProperties := props;
  GetStrainVector := 1%positive;
  GetStressVector := 1%positive;
  GetConstitutiveMatrix := 3%positive
|}.

(** ** The viscosity law on binary64 (lines 62-83) *)

Module Binary64.
Import PrimFloat.
Local Open Scope float_scope.
Local Set Warnings "-inexact-float".

(** [std::exp] and [std::pow] of the C++ library.  The kernel's binary64
    numbers come with [+], [-], [*], [/], [sqrt] and the comparisons
    only, so these two are taken as given. *)
Record Libm : Type := {
  std_exp : float -> float;
  std_pow : float -> float -> float
}.

Definition Properties : Type := KratosVariable -> float.

(** Lines 68-70. *)
Definition equivalent_strain_rate (e0 e1 e2 : float) : float :=
  sqrt (2 * e0 * e0 + 2 * e1 * e1 + 4 * e2 * e2).

(** Line 73. *)
Definition tolerance : float := 1e-8.

(** Lines 62-83. *)
Definition effective_dynamic_viscosity
    (libm : Libm) (r_properties : Properties) (e0 e1 e2 : float) : float :=
  let dynamic_viscosity := r_properties DYNAMIC_VISCOSITY in
  let yield_shear := r_properties YIELD_SHEAR in
  let adaptive_exponent := r_properties ADAPTIVE_EXPONENT in
  let flow_index := r_properties FLOW_INDEX in
  let equivalent_strain_rate := equivalent_strain_rate e0 e1 e2 in
  if equivalent_strain_rate <? tolerance
  then yield_shear * adaptive_exponent
  else
    let regularization :=
      1 - std_exp libm (- adaptive_exponent * equivalent_strain_rate) in
    dynamic_viscosity * std_pow libm equivalent_strain_rate (flow_index - 1)
    + regularization * yield_shear / equivalent_strain_rate.

Definition properties_of (K ys n a bulk : float) : Properties :=
  fun v => match v with
           | DYNAMIC_VISCOSITY => K
           | YIELD_SHEAR => ys
           | FLOW_INDEX => n
           | ADAPTIVE_EXPONENT => a
           | BULK_MODULUS => bulk
           end.

End Binary64.

(** * Properties *)

(** ** Arithmetic *)

Lemma tolerance_pos : 0 < tolerance.
Proof. unfold tolerance. lra. Qed.

Lemma fdiv_defined (x y : double) : y <> 0 -> fdiv x y = Ok (x / y).
Proof. intros Hy. unfold fdiv. destruct (Req_dec_T y 0); [contradiction | reflexivity]. Qed.

Lemma std_pow_positive (x y : double) : 0 < x -> std_pow x y = Ok (Rpower x y).
Proof. intros Hx. unfold std_pow. destruct (Rlt_dec 0 x); [reflexivity | contradiction]. Qed.

Lemma std_sqrt_defined (x : double) : 0 <= x -> std_sqrt x = Ok (sqrt x).
Proof. intros Hx. unfold std_sqrt. destruct (Rle_dec 0 x); [reflexivity | contradiction]. Qed.

Lemma radicand_nonneg (e0 e1 e2 : double) :
  0 <= 2 * e0 * e0 + 2 * e1 * e1 + 4 * e2 * e2.
Proof. nra. Qed.

Lemma equivalent_strain_rate_defined (e0 e1 e2 : double) :
  equivalent_strain_rate e0 e1 e2
  = Ok (sqrt (2 * e0 * e0 + 2 * e1 * e1 + 4 * e2 * e2)).
Proof. apply std_sqrt_defined, radicand_nonneg. Qed.

Lemma regularized_viscosity_positive (K ys a n rate : double) :
  0 < rate ->
  regularized_viscosity K ys a n rate
  = Ok (K * Rpower rate (n - 1) + (1 - exp (- a * rate)) * ys / rate).
Proof.
  intros Hr. unfold regularized_viscosity, std_exp. cbn.
  rewrite (std_pow_positive _ _ Hr). cbn.
  rewrite fdiv_defined by lra. reflexivity.
Qed.

Lemma viscosity_at_below (K ys a n rate : double) :
  rate < tolerance -> viscosity_at K ys a n rate = Ok (ys * a).
Proof.
  intros Hr. unfold viscosity_at.
  destruct (Rlt_dec rate tolerance); [reflexivity | contradiction].
Qed.

Lemma viscosity_at_from (K ys a n rate : double) :
  ~ rate < tolerance ->
  viscosity_at K ys a n rate = regularized_viscosity K ys a n rate.
Proof.
  intros Hr. unfold viscosity_at.
  destruct (Rlt_dec rate tolerance); [contradiction | reflexivity].
Qed.

Lemma effective_dynamic_viscosity_unfold (rValues : Parameters) (e0 e1 e2 : double) :
  effective_dynamic_viscosity rValues e0 e1 e2
  = viscosity_at (GetMaterialProperties rValues DYNAMIC_VISCOSITY)
      (GetMaterialProperties rValues YIELD_SHEAR)
      (GetMaterialProperties rValues ADAPTIVE_EXPONENT)
      (GetMaterialProperties rValues FLOW_INDEX)
      (sqrt (2 * e0 * e0 + 2 * e1 * e1 + 4 * e2 * e2)).
Proof.
  unfold effective_dynamic_viscosity, GetEffectiveMaterialParameter.
  rewrite equivalent_strain_rate_defined. reflexivity.
Qed.

(** ** The store *)

Section Call.
Context `{PfemFluidConstitutiveLaw}.

Lemma bind_run {A B : Type} (c : M A) (k : A -> M B) (m m' : Memory) (a : A) :
  c m = Ok (a, m') -> (c ≫= k) m = k a m'.
Proof. intros Hc. unfold mbind, M_bind. rewrite Hc. reflexivity. Qed.

Lemma read_run (v : ref) (i : nat) (m : Memory) (l : list double) (x : double) :
  vectors m !! v = Some l -> l !! i = Some x -> read v i m = Ok (x, m).
Proof. intros Hv Hi. unfold read. rewrite Hv. cbn. rewrite Hi. reflexivity. Qed.

Lemma write_run (v : ref) (i : nat) (x : double) (m : Memory) (l : list double) :
  vectors m !! v = Some l -> (i < length l)%nat ->
  write v i x m
  = Ok (tt, {| vectors := <[v := <[i := x]> l]> (vectors m);
               matrices := matrices m |}).
Proof.
  intros Hv Hi. unfold write. rewrite Hv.
  destruct (decide (i < length l)%nat); [reflexivity | contradiction].
Qed.

(** One statement of a sequence, run on the store at hand. *)
Ltac find_buffer :=
  cbn [vectors matrices];
  rewrite ?lookup_insert_eq, ?lookup_insert_ne by congruence;
  first [eassumption | reflexivity].

Ltac run_read :=
  erewrite bind_run by (eapply read_run; [find_buffer | reflexivity]).

Ltac run_write :=
  erewrite bind_run by (eapply write_run; [find_buffer | cbn; lia]).

(** The stress vector that lines 89-91 leave behind. *)
Lemma write_stress_vector_run (rValues : Parameters) (mu : double) (m : Memory)
    (e0 e1 e2 s0 s1 s2 : double) (er sr : list double) :
  vectors m !! GetStrainVector rValues = Some (e0 :: e1 :: e2 :: er) ->
  vectors m !! GetStressVector rValues = Some (s0 :: s1 :: s2 :: sr) ->
  write_stress_vector rValues mu m
  = Ok (tt, {| vectors :=
                 <[GetStressVector rValues :=
                     2 * mu * (e0 - (e0 + e1) / 3)
                     :: 2 * mu * (e1 - (e0 + e1) / 3)
                     :: 2 * mu * e2 :: sr]> (vectors m);
               matrices := matrices m |}).
Proof.
  intros He Hs. unfold write_stress_vector.
  destruct rValues as [opts props strain stress cm]; cbn in *.
  destruct (decide (strain = stress)) as [-> | Hne].
  - rewrite He in Hs. injection Hs as -> -> -> ->.
    do 3 run_read. run_write. run_read. run_write. run_read.
    erewrite write_run by (first [find_buffer | cbn; lia]).
    cbn. rewrite !insert_insert_eq. reflexivity.
  - do 3 run_read. run_write. run_read. run_write. run_read.
    erewrite write_run by (first [find_buffer | cbn; lia]).
    cbn. rewrite !insert_insert_eq. reflexivity.
Qed.

(** ** The viscosity law *)

(** The law never leaves the finite reals: past the tolerance test the
    strain rate is positive. *)
Lemma viscosity_at_defined (K ys a n rate : double) :
  exists mu, viscosity_at K ys a n rate = Ok mu.
Proof.
  unfold viscosity_at. destruct (Rlt_dec rate tolerance) as [Hlt | Hge].
  - eexists. reflexivity.
  - pose proof tolerance_pos. eexists.
    apply regularized_viscosity_positive. lra.
Qed.

Lemma effective_dynamic_viscosity_defined (rValues : Parameters) (e0 e1 e2 : double) :
  exists mu, effective_dynamic_viscosity rValues e0 e1 e2 = Ok mu.
Proof. rewrite effective_dynamic_viscosity_unfold. apply viscosity_at_defined. Qed.

(** C1: for every strain-rate tensor and parameter set, the effective
    viscosity is [yieldShear * adaptiveExponent] when the equivalent strain
    rate is below 1e-8, and otherwise
    [consistencyIndex * rate^(flowIndex - 1)
     + (1 - exp (- adaptiveExponent * rate)) * yieldShear / rate]. *)
Theorem C1_effective_viscosity_branches
    (rValues : Parameters) (exx eyy exy : double) :
  let consistencyIndex := GetMaterialProperties rValues DYNAMIC_VISCOSITY in
  let yieldShear := GetMaterialProperties rValues YIELD_SHEAR in
  let flowIndex := GetMaterialProperties rValues FLOW_INDEX in
  let adaptiveExponent := GetMaterialProperties rValues ADAPTIVE_EXPONENT in
  exists rate,
    equivalent_strain_rate exx eyy exy = Ok rate /\
    (rate < 1e-8 ->
     effective_dynamic_viscosity rValues exx eyy exy
     = Ok (yieldShear * adaptiveExponent)) /\
    (~ rate < 1e-8 ->
     effective_dynamic_viscosity rValues exx eyy exy
     = Ok (consistencyIndex * Rpower rate (flowIndex - 1)
           + (1 - exp (- adaptiveExponent * rate)) * yieldShear / rate)).
Proof.
  cbv zeta. eexists. split; [apply equivalent_strain_rate_defined |].
  rewrite effective_dynamic_viscosity_unfold. split; intros Hr.
  - apply viscosity_at_below. exact Hr.
  - rewrite viscosity_at_from by exact Hr.
    apply regularized_viscosity_positive.
    pose proof tolerance_pos. unfold tolerance in *. lra.
Qed.

(** C2: the equivalent strain rate of the tensor (eps_xx, eps_yy, eps_xy)
    is [sqrt (2 eps_xx^2 + 2 eps_yy^2 + 4 eps_xy^2)]. *)
Theorem C2_equivalent_strain_rate (eps_xx eps_yy eps_xy : double) :
  equivalent_strain_rate eps_xx eps_yy eps_xy
  = Ok (sqrt (2 * eps_xx ^ 2 + 2 * eps_yy ^ 2 + 4 * eps_xy ^ 2)).
Proof.
  rewrite equivalent_strain_rate_defined. do 2 f_equal. ring.
Qed.

(** C10: the test against the tolerance is strict.  At a strain rate of
    exactly 1e-8, and at every larger one, the regularized formula is
    evaluated; the constant [yieldShear * adaptiveExponent] is returned
    below 1e-8 only.  The tensor (0, 0, 1e-8 / 2) sits on the boundary. *)
Theorem C10_strict_tolerance (rValues : Parameters) :
  let K := GetMaterialProperties rValues DYNAMIC_VISCOSITY in
  let ys := GetMaterialProperties rValues YIELD_SHEAR in
  let n := GetMaterialProperties rValues FLOW_INDEX in
  let a := GetMaterialProperties rValues ADAPTIVE_EXPONENT in
  (forall exx eyy exy rate,
     equivalent_strain_rate exx eyy exy = Ok rate ->
     (rate < 1e-8 ->
      effective_dynamic_viscosity rValues exx eyy exy = Ok (ys * a)) /\
     (1e-8 <= rate ->
      effective_dynamic_viscosity rValues exx eyy exy
      = regularized_viscosity K ys a n rate)) /\
  equivalent_strain_rate 0 0 (1e-8 / 2) = Ok 1e-8 /\
  effective_dynamic_viscosity rValues 0 0 (1e-8 / 2)
  = Ok (K * Rpower 1e-8 (n - 1) + (1 - exp (- a * 1e-8)) * ys / 1e-8).
Proof.
  cbv zeta.
  assert (Hb : sqrt (2 * 0 * 0 + 2 * 0 * 0 + 4 * (1e-8 / 2) * (1e-8 / 2)) = 1e-8).
  { replace (2 * 0 * 0 + 2 * 0 * 0 + 4 * (1e-8 / 2) * (1e-8 / 2))
      with (1e-8 * 1e-8) by lra.
    apply sqrt_square. lra. }
  split; [| split].
  - intros exx eyy exy rate Hrate.
    rewrite equivalent_strain_rate_defined in Hrate. injection Hrate as <-.
    rewrite effective_dynamic_viscosity_unfold. split; intros Hr.
    + apply viscosity_at_below. exact Hr.
    + apply viscosity_at_from. unfold tolerance. lra.
  - rewrite equivalent_strain_rate_defined, Hb. reflexivity.
  - rewrite effective_dynamic_viscosity_unfold, Hb.
    rewrite viscosity_at_from by (unfold tolerance; lra).
    apply regularized_viscosity_positive. lra.
Qed.

(** ** Sign of the viscosity *)

Lemma Rpower_positive (x y : double) : 0 < Rpower x y.
Proof. unfold Rpower. apply exp_pos. Qed.

(** [1 - y <= exp (- y) <= 1 / (1 + y)] for [y >= 0]. *)
Lemma exp_opp_bounds (y : double) :
  0 <= y -> 1 - y <= exp (- y) /\ exp (- y) <= / (1 + y) /\ exp (- y) <= 1.
Proof.
  intros Hy.
  assert (Hlow : 1 - y <= exp (- y)).
  { pose proof (exp_ineq1_le (- y)). lra. }
  assert (Hup : exp (- y) <= / (1 + y)).
  { rewrite exp_Ropp. apply Rinv_le_contravar; [lra | apply exp_ineq1_le]. }
  repeat split; try assumption.
  apply Rle_trans with (/ (1 + y)); [exact Hup |].
  rewrite <- Rinv_1 at 2. apply Rinv_le_contravar; lra.
Qed.

Lemma regularization_nonneg (a rate : double) :
  0 <= a -> 0 <= rate -> 0 <= 1 - exp (- a * rate).
Proof.
  intros Ha Hr.
  assert (Hy : 0 <= a * rate) by nra.
  destruct (exp_opp_bounds _ Hy) as (_ & _ & Hle).
  replace (- a * rate) with (- (a * rate)) by ring. lra.
Qed.

Lemma regularized_value_nonneg (K ys a n rate : double) :
  0 <= K -> 0 <= ys -> 0 <= a -> 0 < rate ->
  0 <= K * Rpower rate (n - 1) + (1 - exp (- a * rate)) * ys / rate.
Proof.
  intros HK Hys Ha Hr.
  pose proof (Rpower_positive rate (n - 1)) as Hp.
  pose proof (regularization_nonneg a rate Ha (Rlt_le _ _ Hr)) as Hreg.
  assert (0 <= K * Rpower rate (n - 1)) by nra.
  assert (0 <= (1 - exp (- a * rate)) * ys / rate).
  { apply Rmult_le_pos; [nra |]. apply Rlt_le, Rinv_0_lt_compat, Hr. }
  lra.
Qed.

(** C6 (as amended): in exact real arithmetic, with dynamic viscosity,
    yield shear and adaptive exponent non-negative (any flow index), the
    law returns a non-negative effective viscosity for every strain rate
    tensor, the zero tensor included, and evaluates no division by zero
    and no power at a base that is not positive: the branch with the
    division and the power runs only for a strain rate of at least 1e-8,
    where both are defined.  Nothing is said of binary64 overflow. *)
Theorem C6_viscosity_finite_nonneg
    (rValues : Parameters) (exx eyy exy : double) :
  let K := GetMaterialProperties rValues DYNAMIC_VISCOSITY in
  let ys := GetMaterialProperties rValues YIELD_SHEAR in
  let n := GetMaterialProperties rValues FLOW_INDEX in
  let a := GetMaterialProperties rValues ADAPTIVE_EXPONENT in
  0 <= K -> 0 <= ys -> 0 <= a ->
  exists rate mu,
    equivalent_strain_rate exx eyy exy = Ok rate /\
    effective_dynamic_viscosity rValues exx eyy exy = Ok mu /\
    0 <= mu /\
    (rate < 1e-8 /\ mu = ys * a \/
     1e-8 <= rate /\ regularized_viscosity K ys a n rate = Ok mu /\
       fdiv ((1 - exp (- a * rate)) * ys) rate
       = Ok ((1 - exp (- a * rate)) * ys / rate) /\
       std_pow rate (n - 1) = Ok (Rpower rate (n - 1))).
Proof.
  cbv zeta. intros HK Hys Ha.
  exists (sqrt (2 * exx * exx + 2 * eyy * eyy + 4 * exy * exy)).
  set (rate := sqrt _).
  rewrite effective_dynamic_viscosity_unfold. fold rate.
  pose proof tolerance_pos as Htol. unfold tolerance in Htol.
  destruct (Rlt_dec rate 1e-8) as [Hlt | Hge].
  - exists (GetMaterialProperties rValues YIELD_SHEAR
            * GetMaterialProperties rValues ADAPTIVE_EXPONENT).
    split; [apply equivalent_strain_rate_defined |].
    split; [apply viscosity_at_below; exact Hlt |].
    split; [nra | left; split; [exact Hlt | reflexivity]].
  - assert (Hpos : 0 < rate) by lra.
    eexists.
    split; [apply equivalent_strain_rate_defined |].
    split; [rewrite viscosity_at_from by exact Hge;
            apply regularized_viscosity_positive; exact Hpos |].
    split; [apply regularized_value_nonneg; assumption |].
    right. split; [lra |].
    split; [apply regularized_viscosity_positive; exact Hpos |].
    split; [apply fdiv_defined; lra | apply std_pow_positive; exact Hpos].
Qed.

(** ** The call *)

Lemma lift_run {A : Type} (r : Result A) (a : A) (m : Memory) :
  r = Ok a -> lift r m = Ok (a, m).
Proof. intros ->. reflexivity. Qed.

(** The call up to, and not including, the tangent matrix. *)
Lemma CalculateMaterialResponseCauchy_run (rValues : Parameters) (m : Memory)
    (e0 e1 e2 s0 s1 s2 mu : double) (er sr : list double) :
  vectors m !! GetStrainVector rValues = Some (e0 :: e1 :: e2 :: er) ->
  vectors m !! GetStressVector rValues = Some (s0 :: s1 :: s2 :: sr) ->
  effective_dynamic_viscosity rValues e0 e1 e2 = Ok mu ->
  CalculateMaterialResponseCauchy rValues m
  = write_constitutive_matrix rValues mu
      {| vectors :=
           <[GetStressVector rValues :=
               2 * mu * (e0 - (e0 + e1) / 3)
               :: 2 * mu * (e1 - (e0 + e1) / 3)
               :: 2 * mu * e2 :: sr]> (vectors m);
         matrices := matrices m |}.
Proof.
  intros He Hs Hmu. unfold CalculateMaterialResponseCauchy.
  do 3 run_read.
  erewrite bind_run by (apply lift_run; exact Hmu).
  erewrite bind_run by (eapply write_stress_vector_run; eassumption).
  reflexivity.
Qed.

Lemma write_constitutive_matrix_off (rValues : Parameters) (mu : double) (m : Memory) :
  Is (GetOptions rValues) COMPUTE_CONSTITUTIVE_TENSOR = false ->
  write_constitutive_matrix rValues mu m = Ok (tt, m).
Proof. intros Hoff. unfold write_constitutive_matrix. rewrite Hoff. reflexivity. Qed.

Lemma write_constitutive_matrix_on (rValues : Parameters) (mu : double)
    (m : Memory) (C : Matrix) :
  Is (GetOptions rValues) COMPUTE_CONSTITUTIVE_TENSOR = true ->
  matrices m !! GetConstitutiveMatrix rValues = Some C ->
  write_constitutive_matrix rValues mu m
  = Ok (tt, {| vectors := vectors m;
               matrices :=
                 <[GetConstitutiveMatrix rValues :=
                     EffectiveViscousConstitutiveMatrix2D mu C]> (matrices m) |}).
Proof.
  intros Hon HC. unfold write_constitutive_matrix, fill. rewrite Hon, HC.
  reflexivity.
Qed.

(** The tangent step succeeds when the matrix is ready and leaves the
    vectors alone. *)
Lemma write_constitutive_matrix_defined (rValues : Parameters) (mu : double)
    (m : Memory) :
  matrix_ready rValues m ->
  exists m', write_constitutive_matrix rValues mu m = Ok (tt, m') /\
             vectors m' = vectors m.
Proof.
  intros Hready.
  destruct (Is (GetOptions rValues) COMPUTE_CONSTITUTIVE_TENSOR) eqn:Hflag.
  - destruct (Hready Hflag) as [C HC].
    eexists. split; [apply (write_constitutive_matrix_on _ _ _ C Hflag HC) |].
    reflexivity.
  - exists m. split; [apply write_constitutive_matrix_off; exact Hflag |].
    reflexivity.
Qed.

(** C3: for every strain-rate tensor and every effective viscosity
    [mu_eff], lines 85-91 leave in the stress vector
    [2 mu_eff (eps_xx - trace / 3)], [2 mu_eff (eps_yy - trace / 3)] and
    [2 mu_eff eps_xy], with [trace = eps_xx + eps_yy] divided by 3; the
    call writes these for the viscosity of its own strain rate. *)
Theorem C3_deviatoric_stress (rValues : Parameters) (m : Memory)
    (eps_xx eps_yy eps_xy s0 s1 s2 : double) (er sr : list double) :
  vectors m !! GetStrainVector rValues = Some (eps_xx :: eps_yy :: eps_xy :: er) ->
  vectors m !! GetStressVector rValues = Some (s0 :: s1 :: s2 :: sr) ->
  matrix_ready rValues m ->
  let trace := eps_xx + eps_yy in
  let sigma (mu_eff : double) :=
    2 * mu_eff * (eps_xx - trace / 3)
    :: 2 * mu_eff * (eps_yy - trace / 3)
    :: 2 * mu_eff * eps_xy :: sr in
  (forall mu_eff, exists m',
     write_stress_vector rValues mu_eff m = Ok (tt, m') /\
     vectors m' !! GetStressVector rValues = Some (sigma mu_eff)) /\
  (exists mu_eff m',
     effective_dynamic_viscosity rValues eps_xx eps_yy eps_xy = Ok mu_eff /\
     CalculateMaterialResponseCauchy rValues m = Ok (tt, m') /\
     vectors m' !! GetStressVector rValues = Some (sigma mu_eff)).
Proof.
  intros He Hs Hready. cbv zeta. split.
  - intros mu_eff. eexists.
    split; [eapply write_stress_vector_run; eassumption |].
    cbn. apply lookup_insert_eq.
  - destruct (effective_dynamic_viscosity_defined rValues eps_xx eps_yy eps_xy)
      as [mu Hmu].
    exists mu.
    rewrite (CalculateMaterialResponseCauchy_run _ _ _ _ _ _ _ _ _ _ _ He Hs Hmu).
    match goal with
    | |- context [write_constitutive_matrix _ _ ?m1] =>
        destruct (write_constitutive_matrix_defined rValues mu m1)
          as (m' & Hrun & Hvec); [exact Hready |]
    end.
    exists m'. split; [exact Hmu |]. split; [exact Hrun |].
    rewrite Hvec. cbn. apply lookup_insert_eq.
Qed.

(** C7: the two normal stresses left by the assembler add up to
    [2 mu_eff trace / 3], with [trace = eps_xx + eps_yy], for every tensor
    and every [mu_eff]; the sum is not zero for every input. *)
Theorem C7_normal_stress_sum :
  (forall (rValues : Parameters) (m : Memory)
          (eps_xx eps_yy eps_xy s0 s1 s2 mu_eff : double) (er sr : list double),
     vectors m !! GetStrainVector rValues = Some (eps_xx :: eps_yy :: eps_xy :: er) ->
     vectors m !! GetStressVector rValues = Some (s0 :: s1 :: s2 :: sr) ->
     exists m' sigma_xx sigma_yy sigma_xy,
       write_stress_vector rValues mu_eff m = Ok (tt, m') /\
       vectors m' !! GetStressVector rValues
       = Some (sigma_xx :: sigma_yy :: sigma_xy :: sr) /\
       sigma_xx + sigma_yy = 2 * mu_eff * (eps_xx + eps_yy) / 3) /\
  (exists (rValues : Parameters) (m m' : Memory)
          (mu_eff sigma_xx sigma_yy sigma_xy : double),
     write_stress_vector rValues mu_eff m = Ok (tt, m') /\
     vectors m' !! GetStressVector rValues
     = Some [sigma_xx; sigma_yy; sigma_xy] /\
     sigma_xx + sigma_yy <> 0).
Proof.
  split.
  - intros rValues m exx eyy exy s0 s1 s2 mu er sr He Hs.
    do 4 eexists.
    split; [eapply write_stress_vector_run; eassumption |].
    split; [cbn; apply lookup_insert_eq | lra].
  - exists (call_on false (properties_of 1 0 1 1 0)).
    exists {| vectors := <[1%positive := [3; 0; 0]]> (<[2%positive := [0; 0; 0]]> ∅);
              matrices := ∅ |}.
    do 5 eexists.
    split; [eapply (write_stress_vector_run _ 1 _ 3 0 0 0 0 0 [] []);
            cbn; [apply lookup_insert_eq |
                  rewrite lookup_insert_ne by discriminate; apply lookup_insert_eq] |].
    split; [cbn; apply lookup_insert_eq | lra].
Qed.

(** C8 (as amended): the call fills the constitutive matrix exactly when
    COMPUTE_CONSTITUTIVE_TENSOR is set, and with the flag off every matrix
    is as before.  In every call the buffers other than the stress vector
    and that matrix are as before; the strain vector is as before when it
    is a buffer other than the stress vector.  The properties are read
    through a [const] reference and are no part of the store. *)
Theorem C8_frame (rValues : Parameters) (m : Memory)
    (e0 e1 e2 s0 s1 s2 : double) (er sr : list double) :
  vectors m !! GetStrainVector rValues = Some (e0 :: e1 :: e2 :: er) ->
  vectors m !! GetStressVector rValues = Some (s0 :: s1 :: s2 :: sr) ->
  matrix_ready rValues m ->
  exists mu m',
    effective_dynamic_viscosity rValues e0 e1 e2 = Ok mu /\
    CalculateMaterialResponseCauchy rValues m = Ok (tt, m') /\
    (Is (GetOptions rValues) COMPUTE_CONSTITUTIVE_TENSOR = false ->
     matrices m' = matrices m) /\
    (Is (GetOptions rValues) COMPUTE_CONSTITUTIVE_TENSOR = true ->
     exists C, matrices m !! GetConstitutiveMatrix rValues = Some C /\
       matrices m'
       = <[GetConstitutiveMatrix rValues :=
             EffectiveViscousConstitutiveMatrix2D mu C]> (matrices m)) /\
    (forall v, v <> GetStressVector rValues -> vectors m' !! v = vectors m !! v) /\
    (forall c, c <> GetConstitutiveMatrix rValues ->
               matrices m' !! c = matrices m !! c) /\
    (GetStrainVector rValues <> GetStressVector rValues ->
     vectors m' !! GetStrainVector rValues = Some (e0 :: e1 :: e2 :: er)).
Proof.
  intros He Hs Hready.
  destruct (effective_dynamic_viscosity_defined rValues e0 e1 e2) as [mu Hmu].
  exists mu.
  rewrite (CalculateMaterialResponseCauchy_run _ _ _ _ _ _ _ _ _ _ _ He Hs Hmu).
  destruct (Is (GetOptions rValues) COMPUTE_CONSTITUTIVE_TENSOR) eqn:Hflag.
  - destruct (Hready Hflag) as [C HC].
    eexists. split; [exact Hmu |].
    split; [apply (write_constitutive_matrix_on _ _ _ C Hflag); exact HC |].
    cbn. split; [discriminate |].
    split; [intros _; exists C; split; [exact HC | reflexivity] |].
    split; [intros v Hv; apply lookup_insert_ne; congruence |].
    split; [intros c Hc; apply lookup_insert_ne; congruence |].
    intros Hne. rewrite lookup_insert_ne by congruence. exact He.
  - eexists. split; [exact Hmu |].
    split; [apply write_constitutive_matrix_off; exact Hflag |].
    cbn. split; [reflexivity |].
    split; [discriminate |].
    split; [intros v Hv; apply lookup_insert_ne; congruence |].
    split; [reflexivity |].
    intros Hne. rewrite lookup_insert_ne by congruence. exact He.
Qed.

(** C9: with consistencyIndex = 1, yieldShear = 0, flowIndex = 1 and
    adaptiveExponent = 1, the strain tensor (0, 0, 1) has equivalent
    strain rate 2 and effective viscosity 1, and the call leaves the
    stress vector (0, 0, 2). *)
Theorem C9_pure_shear (rValues : Parameters) (m : Memory)
    (s0 s1 s2 : double) :
  GetMaterialProperties rValues DYNAMIC_VISCOSITY = 1 ->
  GetMaterialProperties rValues YIELD_SHEAR = 0 ->
  GetMaterialProperties rValues FLOW_INDEX = 1 ->
  GetMaterialProperties rValues ADAPTIVE_EXPONENT = 1 ->
  vectors m !! GetStrainVector rValues = Some [0; 0; 1] ->
  vectors m !! GetStressVector rValues = Some [s0; s1; s2] ->
  matrix_ready rValues m ->
  equivalent_strain_rate 0 0 1 = Ok 2 /\
  effective_dynamic_viscosity rValues 0 0 1 = Ok 1 /\
  exists m',
    CalculateMaterialResponseCauchy rValues m = Ok (tt, m') /\
    vectors m' !! GetStressVector rValues = Some [0; 0; 2].
Proof.
  intros HK Hys Hn Ha He Hs Hready.
  assert (Hrate : sqrt (2 * 0 * 0 + 2 * 0 * 0 + 4 * 1 * 1) = 2).
  { replace (2 * 0 * 0 + 2 * 0 * 0 + 4 * 1 * 1) with (2 * 2) by lra.
    apply sqrt_square. lra. }
  assert (Hmu : effective_dynamic_viscosity rValues 0 0 1 = Ok 1).
  { rewrite effective_dynamic_viscosity_unfold, Hrate, HK, Hys, Hn, Ha.
    rewrite viscosity_at_from by (unfold tolerance; lra).
    rewrite regularized_viscosity_positive by lra.
    f_equal. replace (1 - 1) with 0 by lra. rewrite Rpower_O by lra. lra. }
  split; [rewrite equivalent_strain_rate_defined, Hrate; reflexivity |].
  split; [exact Hmu |].
  rewrite (CalculateMaterialResponseCauchy_run _ _ _ _ _ _ _ _ _ _ _ He Hs Hmu).
  match goal with
  | |- context [write_constitutive_matrix _ _ ?m1] =>
      destruct (write_constitutive_matrix_defined rValues 1 m1)
        as (m' & Hrun & Hvec); [exact Hready |]
  end.
  exists m'. split; [exact Hrun |].
  rewrite Hvec. cbn. rewrite lookup_insert_eq. repeat f_equal; lra.
Qed.

End Call.

(** C8, as stated, fails: a caller may pass one buffer as strain vector
    and as stress vector.  With parameters 1, 0, 1, 1 the buffer (3, 0, 0)
    holds (4, -2, 0) after the call: the strain vector is modified. *)
Lemma C8_in_place_overwrites_strain :
  GetStrainVector (call_in_place false (properties_of 1 0 1 1 0)) = 1%positive /\
  vectors (store_of [3; 0; 0] [0; 0; 0]) !! 1%positive = Some [3; 0; 0] /\
  exists m',
    CalculateMaterialResponseCauchy (H := spec_host)
      (call_in_place false (properties_of 1 0 1 1 0))
      (store_of [3; 0; 0] [0; 0; 0]) = Ok (tt, m') /\
    vectors m' !! 1%positive = Some [4; -2; 0] /\
    vectors m' !! 1%positive <> vectors (store_of [3; 0; 0] [0; 0; 0]) !! 1%positive.
Proof.
  assert (Hbuf : vectors (store_of [3; 0; 0] [0; 0; 0]) !! 1%positive
                 = Some [3; 0; 0]) by apply lookup_insert_eq.
  split; [reflexivity |]. split; [exact Hbuf |].
  assert (Hrate : 1 <= sqrt (2 * 3 * 3 + 2 * 0 * 0 + 4 * 0 * 0)).
  { rewrite <- sqrt_1 at 1. apply sqrt_le_1_alt. lra. }
  assert (Hmu : effective_dynamic_viscosity
                  (call_in_place false (properties_of 1 0 1 1 0)) 3 0 0 = Ok 1).
  { rewrite effective_dynamic_viscosity_unfold. cbn [GetMaterialProperties
      call_in_place properties_of].
    rewrite viscosity_at_from by (unfold tolerance; lra).
    rewrite regularized_viscosity_positive by lra. f_equal.
    replace (1 - 1) with 0 by ring. rewrite Rpower_O by lra. field. lra. }
  rewrite (CalculateMaterialResponseCauchy_run (H := spec_host)
             (call_in_place false (properties_of 1 0 1 1 0))
             (store_of [3; 0; 0] [0; 0; 0]) 3 0 0 3 0 0 1 [] [] Hbuf Hbuf Hmu).
  rewrite write_constitutive_matrix_off by reflexivity.
  eexists. split; [reflexivity |].
  assert (Hnew : vectors
                   {| vectors :=
                        <[GetStressVector (call_in_place false (properties_of 1 0 1 1 0)) :=
                            [2 * 1 * (3 - (3 + 0) / 3);
                             2 * 1 * (0 - (3 + 0) / 3);
                             2 * 1 * 0]]>
                          (vectors (store_of [3; 0; 0] [0; 0; 0]));
                      matrices := matrices (store_of [3; 0; 0] [0; 0; 0]) |}
                 !! 1%positive = Some [4; -2; 0]).
  { cbn [vectors GetStressVector call_in_place]. rewrite lookup_insert_eq.
    f_equal. f_equal; [lra | f_equal; [lra | f_equal; lra]]. }
  split; [exact Hnew |].
  rewrite Hnew, Hbuf. intros Heq. injection Heq as Heq _. lra.
Qed.

Module Binary64Facts.
Import PrimFloat.
Local Open Scope float_scope.
Local Set Warnings "-inexact-float".

(** C6, as stated, fails on binary64: yield shear 1e200 and adaptive
    exponent 1e200 are finite and not negative, the zero tensor has
    strain rate 0, below the tolerance, and the viscosity is their
    product, which overflows to infinity, whatever [std::exp] and
    [std::pow] are. *)
Lemma C6_overflow_at_rest :
  (0 <=? 1) = true /\ (0 <=? 1e200) = true /\
  is_finite 1 = true /\ is_finite 1e200 = true /\
  Binary64.equivalent_strain_rate 0 0 0 = 0 /\
  (forall libm,
     Binary64.effective_dynamic_viscosity libm
       (Binary64.properties_of 1 1e200 1 1e200 0) 0 0 0 = infinity) /\
  is_finite infinity = false.
Proof.
  do 5 (split; [reflexivity |]).
  split; [intros libm; vm_compute; reflexivity | reflexivity].
Qed.

End Binary64Facts.

(** ** Validation *)

Section ValidationFacts.
Context `{PfemFluidConstitutiveLaw}.

Lemma Rltb_true (x y : double) : x < y -> Rltb x y = true.
Proof. intros Hlt. unfold Rltb. destruct (Rlt_dec x y); [reflexivity | contradiction]. Qed.

Lemma Rltb_false (x y : double) : ~ x < y -> Rltb x y = false.
Proof. intros Hge. unfold Rltb. destruct (Rlt_dec x y); [contradiction | reflexivity]. Qed.

(** C4 (as amended): [Check] tests dynamic viscosity, yield shear, flow
    index, adaptive exponent and bulk modulus in this order and stops at
    the first negative one: it throws one error, which names that
    parameter and shows its value, and the later parameters are not
    looked at.  With no negative parameter it returns 0. *)
Theorem C4_first_violation_only (rMaterialProperties : Properties)
    (rElementGeometry : GeometryType) (rCurrentProcessInfo : ProcessInfo) :
  Check rMaterialProperties rElementGeometry rCurrentProcessInfo
  = match violations rMaterialProperties with
    | [] => Returns 0%Z
    | v :: _ => Throws {| what := error_text v; shown := rMaterialProperties v |}
    end.
Proof.
  unfold Check, violations, checked_variables, KRATOS_ERROR_IF, Rltb.
  cbn. unfold decide, Rlt_decision.
  destruct (Rlt_dec (rMaterialProperties DYNAMIC_VISCOSITY) 0); [reflexivity |].
  destruct (Rlt_dec (rMaterialProperties YIELD_SHEAR) 0); [reflexivity |].
  destruct (Rlt_dec (rMaterialProperties FLOW_INDEX) 0); [reflexivity |].
  destruct (Rlt_dec (rMaterialProperties ADAPTIVE_EXPONENT) 0); [reflexivity |].
  destruct (Rlt_dec (rMaterialProperties BULK_MODULUS) 0); reflexivity.
Qed.

End ValidationFacts.

(** C4, as stated, fails: with dynamic viscosity and yield shear both -1,
    yield shear is a violation and the outcome of [Check] does not report
    it. *)
Lemma C4_second_violation_unreported :
  properties_of (-1) (-1) 1 1 1 YIELD_SHEAR < 0 /\
  ~ reports (@Check spec_host (properties_of (-1) (-1) 1 1 1) tt tt)
      (properties_of (-1) (-1) 1 1 1) YIELD_SHEAR.
Proof.
  split; [cbn; lra |].
  intros (e & Hthrow & Hwhat & _).
  unfold Check in Hthrow.
  rewrite (Rltb_true (properties_of (-1) (-1) 1 1 1 DYNAMIC_VISCOSITY) 0)
    in Hthrow by (cbn; lra).
  unfold KRATOS_ERROR_IF in Hthrow. cbn [mbind Outcome_bind] in Hthrow.
  injection Hthrow as <-. cbn in Hwhat. discriminate Hwhat.
Qed.

(** ** The regularized branch near rest *)

(** The yield term is within [ys * a^2 * rate] of [ys * a]. *)
Lemma yield_term_bound (ys a rate : double) :
  0 <= ys -> 0 <= a -> 0 < rate ->
  Rabs ((1 - exp (- a * rate)) * ys / rate - ys * a) <= ys * (a * a) * rate.
Proof.
  intros Hys Ha Hr.
  assert (Hy : 0 <= a * rate) by nra.
  destruct (exp_opp_bounds _ Hy) as (Hlow & Hup & _).
  replace (- a * rate) with (- (a * rate)) by ring.
  set (e := exp (- (a * rate))) in *.
  assert (Hprod : e * (1 + a * rate) <= 1).
  { apply Rmult_le_reg_r with (/ (1 + a * rate)).
    - apply Rinv_0_lt_compat. lra.
    - rewrite Rmult_assoc, Rinv_r by lra. lra. }
  set (d := 1 - e - a * rate).
  assert (Hd0 : d <= 0) by (unfold d; lra).
  assert (Hd1 : - (a * rate * (a * rate)) <= d) by (unfold d; nra).
  replace ((1 - e) * ys / rate - ys * a) with (ys * d * / rate)
    by (unfold d; field; lra).
  assert (Hinv : 0 < / rate) by (apply Rinv_0_lt_compat; exact Hr).
  assert (Hrr : rate * / rate = 1) by (apply Rinv_r; lra).
  apply Rabs_le. split.
  - assert (Hgoal : ys * (a * a) * rate
                    = ys * (a * rate * (a * rate)) * / rate).
    { transitivity (ys * (a * a) * rate * (rate * / rate)); [rewrite Hrr; ring | ring]. }
    rewrite Hgoal.
    assert (0 <= (ys * d - - (ys * (a * rate * (a * rate)))) * / rate).
    { apply Rmult_le_pos; [nra | lra]. }
    nra.
  - assert (ys * d * / rate <= 0).
    { assert (0 <= (- (ys * d)) * / rate) by (apply Rmult_le_pos; [nra | lra]).
      lra. }
    assert (0 <= ys * (a * a) * rate).
    { apply Rmult_le_pos; [| lra]. apply Rmult_le_pos; [lra | nra]. }
    lra.
Qed.

Lemma yield_term_tends (ys a eps : double) :
  0 <= ys -> 0 <= a -> 0 < eps ->
  exists delta, 0 < delta /\
    forall rate, 0 < rate < delta ->
    Rabs ((1 - exp (- a * rate)) * ys / rate - ys * a) < eps.
Proof.
  intros Hys Ha Heps.
  assert (Hc : 0 <= ys * (a * a)) by (apply Rmult_le_pos; [lra | nra]).
  exists (eps / (ys * (a * a) + 1)).
  assert (Hden : 0 < ys * (a * a) + 1) by lra.
  split; [apply Rdiv_lt_0_compat; lra |].
  intros rate [Hr0 Hr1].
  eapply Rle_lt_trans; [apply yield_term_bound; assumption |].
  assert (Hstep : ys * (a * a) * rate <= ys * (a * a) * (eps / (ys * (a * a) + 1)))
    by (apply Rmult_le_compat_l; lra).
  eapply Rle_lt_trans; [exact Hstep |].
  apply Rmult_lt_reg_r with (ys * (a * a) + 1); [exact Hden |].
  replace (ys * (a * a) * (eps / (ys * (a * a) + 1)) * (ys * (a * a) + 1))
    with (ys * (a * a) * eps) by (field; lra).
  nra.
Qed.

Lemma power_term_tends (K n eps : double) :
  0 <= K -> 1 < n -> 0 < eps ->
  exists delta, 0 < delta /\
    forall rate, 0 < rate < delta -> Rabs (K * Rpower rate (n - 1)) < eps.
Proof.
  intros HK Hn Heps.
  set (b := eps / (K + 1)).
  assert (Hb : 0 < b) by (apply Rdiv_lt_0_compat; lra).
  exists (Rpower b (/ (n - 1))).
  split; [apply Rpower_positive |].
  intros rate [Hr0 Hr1].
  assert (Hlt : Rpower rate (n - 1) < b).
  { apply Rlt_le_trans with (Rpower (Rpower b (/ (n - 1))) (n - 1)).
    - apply Rlt_Rpower_l; [lra | split; assumption].
    - rewrite Rpower_mult, Rinv_l by lra. rewrite Rpower_1 by exact Hb. lra. }
  pose proof (Rpower_positive rate (n - 1)) as Hp.
  rewrite Rabs_pos_eq by nra.
  assert (HKb : K * b < eps).
  { unfold b. apply Rmult_lt_reg_r with (K + 1); [lra |].
    replace (K * (eps / (K + 1)) * (K + 1)) with (K * eps) by (field; lra).
    nra. }
  nra.
Qed.

(** C5 (as amended): for non-negative parameters with flowIndex > 1, or
    with consistencyIndex = 0, the regularized formula tends to
    [yieldShear * adaptiveExponent] as the strain rate tends to 0 from
    above; with flowIndex = 1 it tends to
    [consistencyIndex + yieldShear * adaptiveExponent]. *)
Theorem C5_limit_at_rest (K ys n a : double) :
  0 <= K -> 0 <= ys -> 0 <= n -> 0 <= a ->
  (1 < n \/ K = 0 -> tends_to_at_rest K ys a n (ys * a)) /\
  (n = 1 -> tends_to_at_rest K ys a n (K + ys * a)).
Proof.
  intros HK Hys Hn Ha. split.
  - intros Hcase eps Heps.
    destruct (yield_term_tends ys a (eps / 2) Hys Ha) as (d2 & Hd2 & Hy); [lra |].
    destruct Hcase as [Hn1 | ->].
    + destruct (power_term_tends K n (eps / 2) HK Hn1) as (d1 & Hd1 & Hp); [lra |].
      exists (Rmin d1 d2). split; [apply Rmin_pos; assumption |].
      intros rate [Hr0 Hr1].
      pose proof (Rmin_l d1 d2). pose proof (Rmin_r d1 d2).
      eexists. split; [apply regularized_viscosity_positive; exact Hr0 |].
      specialize (Hp rate ltac:(lra)). specialize (Hy rate ltac:(lra)).
      replace (K * Rpower rate (n - 1) + (1 - exp (- a * rate)) * ys / rate - ys * a)
        with (K * Rpower rate (n - 1)
              + ((1 - exp (- a * rate)) * ys / rate - ys * a)) by ring.
      eapply Rle_lt_trans; [apply Rabs_triang | lra].
    + exists d2. split; [exact Hd2 |].
      intros rate [Hr0 Hr1].
      eexists. split; [apply regularized_viscosity_positive; exact Hr0 |].
      specialize (Hy rate ltac:(lra)).
      replace (0 * Rpower rate (n - 1) + (1 - exp (- a * rate)) * ys / rate - ys * a)
        with ((1 - exp (- a * rate)) * ys / rate - ys * a) by ring.
      lra.
  - intros -> eps Heps.
    destruct (yield_term_tends ys a eps Hys Ha Heps) as (d2 & Hd2 & Hy).
    exists d2. split; [exact Hd2 |].
    intros rate [Hr0 Hr1].
    eexists. split; [apply regularized_viscosity_positive; exact Hr0 |].
    specialize (Hy rate ltac:(lra)).
    replace (1 - 1) with 0 by ring. rewrite Rpower_O by exact Hr0.
    replace (K * 1 + (1 - exp (- a * rate)) * ys / rate - (K + ys * a))
      with ((1 - exp (- a * rate)) * ys / rate - ys * a) by ring.
    exact Hy.
Qed.

(** C5, as stated, fails: with consistencyIndex = 1, yieldShear = 0,
    flowIndex = 1 and adaptiveExponent = 1, all non-negative, the formula
    is 1 at every positive strain rate and does not tend to
    [yieldShear * adaptiveExponent = 0]. *)
Lemma C5_bingham_limit_differs : ~ tends_to_at_rest 1 0 1 1 (0 * 1).
Proof.
  intros Hlim.
  destruct (Hlim (1 / 2)) as (delta & Hdelta & Hnear); [lra |].
  destruct (Hnear (delta / 2)) as (mu & Hmu & Hclose); [lra |].
  rewrite regularized_viscosity_positive in Hmu by lra.
  injection Hmu as <-.
  replace (1 - 1) with 0 in Hclose by ring.
  rewrite Rpower_O in Hclose by lra.
  replace (1 * 1 + (1 - exp (- 1 * (delta / 2))) * 0 / (delta / 2) - 0 * 1)
    with 1 in Hclose by (field; lra).
  rewrite Rabs_pos_eq in Hclose by lra. lra.
Qed.

(** ** Worked cases *)

Lemma sqrt_rest : sqrt (2 * 0 * 0 + 2 * 0 * 0 + 4 * 0 * 0) = 0.
Proof.
  replace (2 * 0 * 0 + 2 * 0 * 0 + 4 * 0 * 0) with 0 by lra. apply sqrt_0.
Qed.

Lemma store_of_strain (strain stress : list double) :
  vectors (store_of strain stress) !! 1%positive = Some strain.
Proof. apply lookup_insert_eq. Qed.

Lemma store_of_stress (strain stress : list double) :
  vectors (store_of strain stress) !! 2%positive = Some stress.
Proof.
  cbn. rewrite lookup_insert_ne by discriminate. apply lookup_insert_eq.
Qed.

Lemma store_of_matrix_ready (tangent : bool) (props : Properties)
    (strain stress : list double) :
  matrix_ready (call_on tangent props) (store_of strain stress).
Proof. intros _. exists []. apply lookup_insert_eq. Qed.

(** At rest, with consistencyIndex 5, yieldShear 10, flowIndex 1.2 and
    adaptiveExponent 2, the viscosity is 10 * 2. *)
Lemma C1_at_rest :
  effective_dynamic_viscosity
    (call_on false (properties_of 5 10 (6 / 5) 2 0)) 0 0 0
  = Ok (10 * 2).
Proof.
  destruct (C1_effective_viscosity_branches
              (call_on false (properties_of 5 10 (6 / 5) 2 0)) 0 0 0)
    as (rate & Hrate & Hbelow & _).
  apply Hbelow.
  rewrite equivalent_strain_rate_defined, sqrt_rest in Hrate.
  injection Hrate as <-. lra.
Defined.

(** The stress of the strain (3, 0, 0) at viscosity 1 is (4, -2, 0). *)
Lemma C3_uniaxial :
  exists m',
    write_stress_vector (H := spec_host)
      (call_on false (properties_of 1 0 1 1 0)) 1
      (store_of [3; 0; 0] [0; 0; 0]) = Ok (tt, m') /\
    vectors m' !! 2%positive
    = Some [2 * 1 * (3 - (3 + 0) / 3); 2 * 1 * (0 - (3 + 0) / 3); 2 * 1 * 0].
Proof.
  apply (C3_deviatoric_stress (H := spec_host)
           (call_on false (properties_of 1 0 1 1 0))
           (store_of [3; 0; 0] [0; 0; 0]) 3 0 0 0 0 0 [] []
           (store_of_strain _ _) (store_of_stress _ _)
           (store_of_matrix_ready _ _ _ _)).
Defined.

(** The viscosity at rest with parameters 5, 10, 1.2, 2 is defined and
    not negative. *)
Lemma C6_at_rest :
  exists mu,
    effective_dynamic_viscosity
      (call_on false (properties_of 5 10 (6 / 5) 2 0)) 0 0 0 = Ok mu /\
    0 <= mu.
Proof.
  destruct (C6_viscosity_finite_nonneg
              (call_on false (properties_of 5 10 (6 / 5) 2 0)) 0 0 0)
    as (rate & mu & _ & Hmu & Hsign & _); [cbn; lra | cbn; lra | cbn; lra |].
  exists mu. split; assumption.
Defined.

(** The normal stresses of the strain (3, 0, 0) at viscosity 1 add up to
    2 * 1 * 3 / 3. *)
Lemma C7_uniaxial :
  exists m' sigma_xx sigma_yy sigma_xy,
    write_stress_vector (H := spec_host)
      (call_on false (properties_of 1 0 1 1 0)) 1
      (store_of [3; 0; 0] [0; 0; 0]) = Ok (tt, m') /\
    vectors m' !! 2%positive = Some [sigma_xx; sigma_yy; sigma_xy] /\
    sigma_xx + sigma_yy = 2 * 1 * (3 + 0) / 3.
Proof.
  apply (proj1 (C7_normal_stress_sum (H := spec_host))
           (call_on false (properties_of 1 0 1 1 0))
           (store_of [3; 0; 0] [0; 0; 0]) 3 0 0 0 0 0 1 [] []
           (store_of_strain _ _) (store_of_stress _ _)).
Defined.

(** A call with the flag set leaves the strain vector (0, 0, 1) as it
    was. *)
Lemma C8_strain_kept :
  exists m',
    CalculateMaterialResponseCauchy (H := spec_host)
      (call_on true (properties_of 1 0 1 1 0))
      (store_of [0; 0; 1] [0; 0; 0]) = Ok (tt, m') /\
    vectors m' !! 1%positive = Some [0; 0; 1].
Proof.
  destruct (C8_frame (H := spec_host)
              (call_on true (properties_of 1 0 1 1 0))
              (store_of [0; 0; 1] [0; 0; 0]) 0 0 1 0 0 0 [] []
              (store_of_strain _ _) (store_of_stress _ _)
              (store_of_matrix_ready _ _ _ _))
    as (mu & m' & _ & Hrun & _ & _ & _ & _ & Hstrain).
  exists m'. split; [exact Hrun | apply Hstrain; discriminate].
Defined.

(** The pure shear case, run on a store. *)
Lemma C9_on_store :
  exists m',
    CalculateMaterialResponseCauchy (H := spec_host)
      (call_on true (properties_of 1 0 1 1 0))
      (store_of [0; 0; 1] [7; 7; 7]) = Ok (tt, m') /\
    vectors m' !! 2%positive = Some [0; 0; 2].
Proof.
  apply (C9_pure_shear (H := spec_host)
           (call_on true (properties_of 1 0 1 1 0))
           (store_of [0; 0; 1] [7; 7; 7]) 7 7 7
           eq_refl eq_refl eq_refl eq_refl
           (store_of_strain _ _) (store_of_stress _ _)
           (store_of_matrix_ready _ _ _ _)).
Defined.

(** Just below the boundary the constant is returned: the tensor
    (0, 0, 0) has strain rate 0. *)
Lemma C10_below :
  effective_dynamic_viscosity
    (call_on false (properties_of 5 10 (6 / 5) 2 0)) 0 0 0
  = Ok (10 * 2).
Proof.
  apply (proj1 (proj1 (C10_strict_tolerance
                         (call_on false (properties_of 5 10 (6 / 5) 2 0)))
                  0 0 0 0
                  (eq_trans (equivalent_strain_rate_defined 0 0 0)
                            (f_equal Ok sqrt_rest)))).
  lra.
Defined.

(** With consistencyIndex 1, yieldShear 1, flowIndex 2 and
    adaptiveExponent 1 the formula tends to 1 * 1. *)
Lemma C5_shear_thickening : tends_to_at_rest 1 1 1 2 (1 * 1).
Proof.
  apply (proj1 (C5_limit_at_rest 1 1 2 1 ltac:(lra) ltac:(lra) ltac:(lra) ltac:(lra))).
  left. lra.
Defined.

(** * Further properties of the law *)

(** ** The equivalent strain rate *)

Lemma radicand_scaled (c e0 e1 e2 : double) :
  2 * (c * e0) * (c * e0) + 2 * (c * e1) * (c * e1) + 4 * (c * e2) * (c * e2)
  = c * c * (2 * e0 * e0 + 2 * e1 * e1 + 4 * e2 * e2).
Proof. ring. Qed.

(** X1: the equivalent strain rate is never negative, and it is zero for
    the zero tensor only. *)
Theorem strain_rate_zero_iff (e0 e1 e2 : double) :
  exists rate,
    equivalent_strain_rate e0 e1 e2 = Ok rate /\
    0 <= rate /\
    (rate = 0 <-> e0 = 0 /\ e1 = 0 /\ e2 = 0).
Proof.
  eexists. split; [apply equivalent_strain_rate_defined |].
  split; [apply sqrt_pos |].
  pose proof (radicand_nonneg e0 e1 e2) as Hrad. split.
  - intros Hzero. apply sqrt_eq_0 in Hzero; [| exact Hrad].
    assert (H0 : e0 * e0 = 0) by nra.
    assert (H1 : e1 * e1 = 0) by nra.
    assert (H2 : e2 * e2 = 0) by nra.
    repeat split;
      match goal with
      | |- ?x = 0 =>
          destruct (Rmult_integral x x ltac:(assumption)); assumption
      end.
  - intros (-> & -> & ->).
    replace (2 * 0 * 0 + 2 * 0 * 0 + 4 * 0 * 0) with 0 by ring. apply sqrt_0.
Qed.

(** X2: scaling the tensor by [c] scales the equivalent strain rate by
    [|c|]; reversing the tensor leaves it as it is. *)
Theorem strain_rate_homogeneous (c e0 e1 e2 : double) :
  exists rate,
    equivalent_strain_rate e0 e1 e2 = Ok rate /\
    equivalent_strain_rate (c * e0) (c * e1) (c * e2) = Ok (Rabs c * rate) /\
    equivalent_strain_rate (- e0) (- e1) (- e2) = Ok rate.
Proof.
  eexists. split; [apply equivalent_strain_rate_defined |]. split.
  - rewrite equivalent_strain_rate_defined, radicand_scaled. f_equal.
    rewrite sqrt_mult_alt by nra. f_equal.
    apply (sqrt_Rsqr_abs c).
  - rewrite equivalent_strain_rate_defined. do 2 f_equal. ring.
Qed.

(** ** The viscosity law *)

(** The viscosity is the same for a tensor and its reverse. *)
Lemma viscosity_even (rValues : Parameters) (e0 e1 e2 : double) :
  effective_dynamic_viscosity rValues (- e0) (- e1) (- e2)
  = effective_dynamic_viscosity rValues e0 e1 e2.
Proof.
  rewrite !effective_dynamic_viscosity_unfold. do 2 f_equal. ring.
Qed.

(** X3: with non-negative parameters and a strain rate of at least 1e-8,
    the yield part of the viscosity lies between 0 and
    [yield_shear * adaptive_exponent], the value used at rest: the
    viscosity lies between the power-law term and that term plus
    [yield_shear * adaptive_exponent]. *)
Theorem yield_part_capped (rValues : Parameters) (e0 e1 e2 rate : double) :
  let K := GetMaterialProperties rValues DYNAMIC_VISCOSITY in
  let ys := GetMaterialProperties rValues YIELD_SHEAR in
  let n := GetMaterialProperties rValues FLOW_INDEX in
  let a := GetMaterialProperties rValues ADAPTIVE_EXPONENT in
  0 <= ys -> 0 <= a ->
  equivalent_strain_rate e0 e1 e2 = Ok rate ->
  1e-8 <= rate ->
  exists mu,
    effective_dynamic_viscosity rValues e0 e1 e2 = Ok mu /\
    K * Rpower rate (n - 1) <= mu <= K * Rpower rate (n - 1) + ys * a.
Proof.
  cbv zeta. intros Hys Ha Hrate Hge.
  rewrite equivalent_strain_rate_defined in Hrate. injection Hrate as Hrate.
  rewrite effective_dynamic_viscosity_unfold, Hrate.
  assert (Hpos : 0 < rate) by lra.
  rewrite viscosity_at_from by (unfold tolerance; lra).
  eexists. split; [apply regularized_viscosity_positive; exact Hpos |].
  set (a := GetMaterialProperties rValues ADAPTIVE_EXPONENT) in *.
  set (ys := GetMaterialProperties rValues YIELD_SHEAR) in *.
  pose proof (regularization_nonneg a rate Ha (Rlt_le _ _ Hpos)) as Hreg.
  assert (Hy : 0 <= a * rate) by nra.
  destruct (exp_opp_bounds _ Hy) as (Hlow & _ & _).
  replace (- a * rate) with (- (a * rate)) in * by ring.
  set (r := 1 - exp (- (a * rate))) in *.
  assert (Hr : r <= a * rate) by (unfold r; lra).
  assert (Hinv : 0 < / rate) by (apply Rinv_0_lt_compat; exact Hpos).
  assert (Hyield0 : 0 <= r * ys / rate).
  { apply Rmult_le_pos; [nra | lra]. }
  assert (Hyield1 : r * ys / rate <= ys * a).
  { replace (ys * a) with (a * rate * ys / rate) by (field; lra).
    apply Rmult_le_compat_r; [lra | nra]. }
  lra.
Qed.

(** X4: a Newtonian parameter set (yield shear 0, flow index 1) gives the
    dynamic viscosity itself from a strain rate of 1e-8 on, and the
    viscosity 0 below 1e-8. *)
Theorem newtonian_viscosity (rValues : Parameters) (e0 e1 e2 rate : double) :
  GetMaterialProperties rValues YIELD_SHEAR = 0 ->
  GetMaterialProperties rValues FLOW_INDEX = 1 ->
  equivalent_strain_rate e0 e1 e2 = Ok rate ->
  (1e-8 <= rate ->
   effective_dynamic_viscosity rValues e0 e1 e2
   = Ok (GetMaterialProperties rValues DYNAMIC_VISCOSITY)) /\
  (rate < 1e-8 -> effective_dynamic_viscosity rValues e0 e1 e2 = Ok 0).
Proof.
  intros Hys Hn Hrate.
  rewrite equivalent_strain_rate_defined in Hrate. injection Hrate as Hrate.
  rewrite effective_dynamic_viscosity_unfold, Hrate, Hys, Hn. split; intros Hr.
  - rewrite viscosity_at_from by (unfold tolerance; lra).
    rewrite regularized_viscosity_positive by lra. f_equal.
    replace (1 - 1) with 0 by ring. rewrite Rpower_O by lra. field. lra.
  - rewrite viscosity_at_below by exact Hr. f_equal. ring.
Qed.

(** X5: with adaptive exponent 0 the yield shear has no effect: the
    viscosity is the power-law term from 1e-8 on and 0 below. *)
Theorem no_regularization_no_yield (rValues : Parameters) (e0 e1 e2 rate : double) :
  GetMaterialProperties rValues ADAPTIVE_EXPONENT = 0 ->
  equivalent_strain_rate e0 e1 e2 = Ok rate ->
  (1e-8 <= rate ->
   effective_dynamic_viscosity rValues e0 e1 e2
   = Ok (GetMaterialProperties rValues DYNAMIC_VISCOSITY
         * Rpower rate (GetMaterialProperties rValues FLOW_INDEX - 1))) /\
  (rate < 1e-8 -> effective_dynamic_viscosity rValues e0 e1 e2 = Ok 0).
Proof.
  intros Ha Hrate.
  rewrite equivalent_strain_rate_defined in Hrate. injection Hrate as Hrate.
  rewrite effective_dynamic_viscosity_unfold, Hrate, Ha. split; intros Hr.
  - rewrite viscosity_at_from by (unfold tolerance; lra).
    rewrite regularized_viscosity_positive by lra. f_equal.
    replace (- 0 * rate) with 0 by ring. rewrite exp_0. field. lra.
  - rewrite viscosity_at_below by exact Hr. f_equal. ring.
Qed.

(** ** The call on the caller's buffers *)

Section CallExtras.
Context `{PfemFluidConstitutiveLaw}.

(** The store a call leaves, with the flag off and with the flag on. *)
Lemma call_result (rValues : Parameters) (m : Memory)
    (e0 e1 e2 s0 s1 s2 : double) (er sr : list double) :
  vectors m !! GetStrainVector rValues = Some (e0 :: e1 :: e2 :: er) ->
  vectors m !! GetStressVector rValues = Some (s0 :: s1 :: s2 :: sr) ->
  matrix_ready rValues m ->
  exists mu m',
    effective_dynamic_viscosity rValues e0 e1 e2 = Ok mu /\
    CalculateMaterialResponseCauchy rValues m = Ok (tt, m') /\
    vectors m'
    = <[GetStressVector rValues :=
          2 * mu * (e0 - (e0 + e1) / 3)
          :: 2 * mu * (e1 - (e0 + e1) / 3)
          :: 2 * mu * e2 :: sr]> (vectors m) /\
    (Is (GetOptions rValues) COMPUTE_CONSTITUTIVE_TENSOR = false ->
     matrices m' = matrices m) /\
    (Is (GetOptions rValues) COMPUTE_CONSTITUTIVE_TENSOR = true ->
     is_Some (matrices m' !! GetConstitutiveMatrix rValues)).
Proof.
  intros He Hs Hready.
  destruct (effective_dynamic_viscosity_defined rValues e0 e1 e2) as [mu Hmu].
  exists mu.
  rewrite (CalculateMaterialResponseCauchy_run _ _ _ _ _ _ _ _ _ _ _ He Hs Hmu).
  destruct (Is (GetOptions rValues) COMPUTE_CONSTITUTIVE_TENSOR) eqn:Hflag.
  - destruct (Hready Hflag) as [C HC].
    eexists. split; [exact Hmu |].
    split; [apply (write_constitutive_matrix_on _ _ _ C Hflag); exact HC |].
    cbn. split; [reflexivity |]. split; [discriminate |].
    intros _. rewrite lookup_insert_eq. eexists. reflexivity.
  - eexists. split; [exact Hmu |].
    split; [apply write_constitutive_matrix_off; exact Hflag |].
    cbn. split; [reflexivity |]. split; [reflexivity | discriminate].
Qed.

(** X6: a call may be made in place.  When the caller hands in one buffer
    as strain vector and as stress vector, the call leaves in it the
    stress of the strain it held: every entry is read before it is
    overwritten. *)
Theorem call_in_place_stress (rValues : Parameters) (m : Memory)
    (e0 e1 e2 : double) (er : list double) :
  GetStressVector rValues = GetStrainVector rValues ->
  vectors m !! GetStrainVector rValues = Some (e0 :: e1 :: e2 :: er) ->
  matrix_ready rValues m ->
  exists mu m',
    effective_dynamic_viscosity rValues e0 e1 e2 = Ok mu /\
    CalculateMaterialResponseCauchy rValues m = Ok (tt, m') /\
    vectors m' !! GetStrainVector rValues
    = Some (2 * mu * (e0 - (e0 + e1) / 3)
            :: 2 * mu * (e1 - (e0 + e1) / 3)
            :: 2 * mu * e2 :: er).
Proof.
  intros Hsame He Hready.
  assert (Hs : vectors m !! GetStressVector rValues = Some (e0 :: e1 :: e2 :: er))
    by (rewrite Hsame; exact He).
  destruct (call_result _ _ _ _ _ _ _ _ _ _ He Hs Hready)
    as (mu & m' & Hmu & Hrun & Hvec & _).
  exists mu, m'. split; [exact Hmu |]. split; [exact Hrun |].
  rewrite Hvec, <- Hsame. apply lookup_insert_eq.
Qed.

(** X7: with separate strain and stress buffers a second call changes no
    vector, and with the flag off it changes nothing at all. *)
Theorem call_twice (rValues : Parameters) (m : Memory)
    (e0 e1 e2 s0 s1 s2 : double) (er sr : list double) :
  GetStrainVector rValues <> GetStressVector rValues ->
  vectors m !! GetStrainVector rValues = Some (e0 :: e1 :: e2 :: er) ->
  vectors m !! GetStressVector rValues = Some (s0 :: s1 :: s2 :: sr) ->
  matrix_ready rValues m ->
  exists m1 m2,
    CalculateMaterialResponseCauchy rValues m = Ok (tt, m1) /\
    CalculateMaterialResponseCauchy rValues m1 = Ok (tt, m2) /\
    vectors m2 = vectors m1 /\
    (Is (GetOptions rValues) COMPUTE_CONSTITUTIVE_TENSOR = false -> m2 = m1).
Proof.
  intros Hne He Hs Hready.
  destruct (call_result _ _ _ _ _ _ _ _ _ _ He Hs Hready)
    as (mu & m1 & Hmu & Hrun1 & Hvec1 & Hoff1 & Hon1).
  assert (He1 : vectors m1 !! GetStrainVector rValues = Some (e0 :: e1 :: e2 :: er)).
  { rewrite Hvec1, lookup_insert_ne by congruence. exact He. }
  assert (Hs1 : vectors m1 !! GetStressVector rValues
                = Some (2 * mu * (e0 - (e0 + e1) / 3)
                        :: 2 * mu * (e1 - (e0 + e1) / 3)
                        :: 2 * mu * e2 :: sr)).
  { rewrite Hvec1. apply lookup_insert_eq. }
  assert (Hready1 : matrix_ready rValues m1) by exact Hon1.
  destruct (call_result _ _ _ _ _ _ _ _ _ _ He1 Hs1 Hready1)
    as (mu' & m2 & Hmu' & Hrun2 & Hvec2 & Hoff2 & _).
  assert (mu' = mu) as -> by congruence.
  exists m1, m2. split; [exact Hrun1 |]. split; [exact Hrun2 |].
  assert (Hvec : vectors m2 = vectors m1).
  { rewrite Hvec2, Hvec1. apply insert_insert_eq. }
  split; [exact Hvec |].
  intros Hflag. specialize (Hoff2 Hflag).
  destruct m1, m2; cbn in *. congruence.
Qed.

(** X8: the stress vector is an output only.  With separate buffers,
    what the stress vector held in its three entries before the call has
    no effect on the store the call leaves. *)
Theorem stress_vector_not_read (rValues : Parameters) (m : Memory)
    (e0 e1 e2 s0 s1 s2 t0 t1 t2 : double) (er sr : list double) :
  GetStrainVector rValues <> GetStressVector rValues ->
  vectors m !! GetStrainVector rValues = Some (e0 :: e1 :: e2 :: er) ->
  vectors m !! GetStressVector rValues = Some (s0 :: s1 :: s2 :: sr) ->
  CalculateMaterialResponseCauchy rValues
    {| vectors := <[GetStressVector rValues := t0 :: t1 :: t2 :: sr]> (vectors m);
       matrices := matrices m |}
  = CalculateMaterialResponseCauchy rValues m.
Proof.
  intros Hne He Hs.
  destruct (effective_dynamic_viscosity_defined rValues e0 e1 e2) as [mu Hmu].
  rewrite (CalculateMaterialResponseCauchy_run _ m _ _ _ _ _ _ _ _ _ He Hs Hmu).
  erewrite (CalculateMaterialResponseCauchy_run _ _ e0 e1 e2 t0 t1 t2 mu er sr);
    [| cbn; rewrite lookup_insert_ne by congruence; exact He
     | cbn; apply lookup_insert_eq
     | exact Hmu].
  cbn. rewrite insert_insert_eq. reflexivity.
Qed.

(** X9: the call reads the strain vector and writes the stress vector
    below [GetStrainSize] only.  Buffers of at least that size are
    enough; the stress vector keeps its length and its entries from
    [GetStrainSize] on, and strain entries from there on have no effect
    on the stress. *)
Theorem call_footprint (rValues : Parameters) (m : Memory)
    (strain stress : list double) :
  vectors m !! GetStrainVector rValues = Some strain ->
  vectors m !! GetStressVector rValues = Some stress ->
  (GetStrainSize <= length strain)%nat ->
  (GetStrainSize <= length stress)%nat ->
  matrix_ready rValues m ->
  exists m' sigma e0 e1 e2 mu,
    CalculateMaterialResponseCauchy rValues m = Ok (tt, m') /\
    vectors m' !! GetStressVector rValues = Some (sigma ++ drop GetStrainSize stress) /\
    length sigma = GetStrainSize /\
    take GetStrainSize strain = [e0; e1; e2] /\
    effective_dynamic_viscosity rValues e0 e1 e2 = Ok mu /\
    sigma = [2 * mu * (e0 - (e0 + e1) / 3);
             2 * mu * (e1 - (e0 + e1) / 3);
             2 * mu * e2].
Proof.
  intros He Hs Hle Hls Hready. unfold GetStrainSize in *.
  destruct strain as [| e0 [| e1 [| e2 er]]]; cbn in Hle; try lia.
  destruct stress as [| s0 [| s1 [| s2 sr]]]; cbn in Hls; try lia.
  destruct (call_result _ _ _ _ _ _ _ _ _ _ He Hs Hready)
    as (mu & m' & Hmu & Hrun & Hvec & _).
  exists m', [2 * mu * (e0 - (e0 + e1) / 3);
              2 * mu * (e1 - (e0 + e1) / 3);
              2 * mu * e2], e0, e1, e2, mu.
  split; [exact Hrun |].
  split; [rewrite Hvec, lookup_insert_eq; reflexivity |].
  split; [reflexivity |]. split; [reflexivity |].
  split; [exact Hmu | reflexivity].
Qed.

(** X10: reversing the strain rate reverses the stress.  Two calls with
    the same properties on a tensor and on its reverse find the same
    viscosity and leave stress vectors that are each other's reverse. *)
Theorem stress_odd (rValues : Parameters) (m n : Memory)
    (e0 e1 e2 s0 s1 s2 t0 t1 t2 : double) (er fr sr tr : list double) :
  vectors m !! GetStrainVector rValues = Some (e0 :: e1 :: e2 :: er) ->
  vectors n !! GetStrainVector rValues = Some (- e0 :: - e1 :: - e2 :: fr) ->
  vectors m !! GetStressVector rValues = Some (s0 :: s1 :: s2 :: sr) ->
  vectors n !! GetStressVector rValues = Some (t0 :: t1 :: t2 :: tr) ->
  matrix_ready rValues m -> matrix_ready rValues n ->
  exists m' n' x y z,
    CalculateMaterialResponseCauchy rValues m = Ok (tt, m') /\
    CalculateMaterialResponseCauchy rValues n = Ok (tt, n') /\
    vectors m' !! GetStressVector rValues = Some (x :: y :: z :: sr) /\
    vectors n' !! GetStressVector rValues = Some (- x :: - y :: - z :: tr).
Proof.
  intros Hem Hen Hsm Hsn Hrm Hrn.
  destruct (call_result _ _ _ _ _ _ _ _ _ _ Hem Hsm Hrm)
    as (mu & m' & Hmu & Hrun & Hvec & _).
  destruct (call_result _ _ _ _ _ _ _ _ _ _ Hen Hsn Hrn)
    as (nu & n' & Hnu & Hrun' & Hvec' & _).
  assert (nu = mu) as -> by (rewrite viscosity_even in Hnu; congruence).
  exists m', n'. do 3 eexists.
  split; [exact Hrun |]. split; [exact Hrun' |].
  split; [rewrite Hvec; apply lookup_insert_eq |].
  rewrite Hvec', lookup_insert_eq.
  f_equal. f_equal; [field | f_equal; [field | f_equal; field]].
Qed.


(** X12: for a strain rate without trace ([e0 + e1 = 0], a flow that
    keeps its volume) the stress is [2 mu] times the strain rate, and its
    two normal entries add up to zero: the divisor of the trace plays no
    part. *)
Theorem stress_trace_free (rValues : Parameters) (m : Memory)
    (e0 e1 e2 s0 s1 s2 : double) (er sr : list double) :
  e0 + e1 = 0 ->
  vectors m !! GetStrainVector rValues = Some (e0 :: e1 :: e2 :: er) ->
  vectors m !! GetStressVector rValues = Some (s0 :: s1 :: s2 :: sr) ->
  matrix_ready rValues m ->
  exists mu m',
    effective_dynamic_viscosity rValues e0 e1 e2 = Ok mu /\
    CalculateMaterialResponseCauchy rValues m = Ok (tt, m') /\
    vectors m' !! GetStressVector rValues
    = Some (2 * mu * e0 :: 2 * mu * e1 :: 2 * mu * e2 :: sr) /\
    2 * mu * e0 + 2 * mu * e1 = 0.
Proof.
  intros Htr He Hs Hready.
  destruct (call_result _ _ _ _ _ _ _ _ _ _ He Hs Hready)
    as (mu & m' & Hmu & Hrun & Hvec & _).
  exists mu, m'. split; [exact Hmu |]. split; [exact Hrun |].
  split; [| nra].
  rewrite Hvec, lookup_insert_eq, Htr.
  f_equal. f_equal; [field | f_equal; field].
Qed.

(** X13: the call never reads the bulk modulus.  Two calls that differ
    in their properties only, and there in no variable but BULK_MODULUS,
    do the same to every store. *)
Theorem bulk_modulus_not_read (options : Flags) (props props' : Properties)
    (strain stress matrix : ref) (m : Memory) :
  (forall v, v <> BULK_MODULUS -> props v = props' v) ->
  CalculateMaterialResponseCauchy
    {| GetOptions := options; GetMaterialProperties := props;
       GetStrainVector := strain; GetStressVector := stress;
       GetConstitutiveMatrix := matrix |} m
  = CalculateMaterialResponseCauchy
      {| GetOptions := options; GetMaterialProperties := props';
         GetStrainVector := strain; GetStressVector := stress;
         GetConstitutiveMatrix := matrix |} m.
Proof.
  intros Hsame.
  unfold CalculateMaterialResponseCauchy, effective_dynamic_viscosity,
    GetEffectiveMaterialParameter.
  cbn [GetMaterialProperties GetStrainVector].
  rewrite <- !Hsame by discriminate. reflexivity.
Qed.

End CallExtras.

(** ** Check and the call together *)

Section CheckExtras.
Context `{PfemFluidConstitutiveLaw}.

(** What [Check] does, by the signs of the five parameters. *)
Lemma Check_cases (rMaterialProperties : Properties)
    (rElementGeometry : GeometryType) (rCurrentProcessInfo : ProcessInfo) :
  (Check rMaterialProperties rElementGeometry rCurrentProcessInfo = Returns 0%Z /\
   forall v, 0 <= rMaterialProperties v) \/
  (exists v,
     Check rMaterialProperties rElementGeometry rCurrentProcessInfo
     = Throws {| what := error_text v; shown := rMaterialProperties v |} /\
     rMaterialProperties v < 0).
Proof.
  unfold Check, KRATOS_ERROR_IF, Rltb.
  destruct (Rlt_dec (rMaterialProperties DYNAMIC_VISCOSITY) 0);
    [right; exists DYNAMIC_VISCOSITY; split; [reflexivity | assumption] |].
  destruct (Rlt_dec (rMaterialProperties YIELD_SHEAR) 0);
    [right; exists YIELD_SHEAR; split; [reflexivity | assumption] |].
  destruct (Rlt_dec (rMaterialProperties FLOW_INDEX) 0);
    [right; exists FLOW_INDEX; split; [reflexivity | assumption] |].
  destruct (Rlt_dec (rMaterialProperties ADAPTIVE_EXPONENT) 0);
    [right; exists ADAPTIVE_EXPONENT; split; [reflexivity | assumption] |].
  destruct (Rlt_dec (rMaterialProperties BULK_MODULUS) 0);
    [right; exists BULK_MODULUS; split; [reflexivity | assumption] |].
  left. split; [reflexivity |]. intros []; lra.
Qed.

(** X14: [Check] returns exactly when all five parameters are at least 0
    (a parameter equal to 0 passes), and the status it returns is 0. *)
Theorem Check_accepts_iff (rMaterialProperties : Properties)
    (rElementGeometry : GeometryType) (rCurrentProcessInfo : ProcessInfo) :
  ((exists status,
      Check rMaterialProperties rElementGeometry rCurrentProcessInfo
      = Returns status)
   <-> forall v, 0 <= rMaterialProperties v) /\
  (forall status,
     Check rMaterialProperties rElementGeometry rCurrentProcessInfo
     = Returns status -> status = 0%Z).
Proof.
  destruct (Check_cases rMaterialProperties rElementGeometry rCurrentProcessInfo)
    as [[Hret Hall] | (v & Hthrow & Hneg)].
  - split; [split; [intros _; exact Hall | intros _; eexists; exact Hret] |].
    intros status Hstatus. congruence.
  - split; [split |].
    + intros [status Hstatus]. congruence.
    + intros Hall. specialize (Hall v). lra.
    + intros status Hstatus. congruence.
Qed.

(** X15: an error thrown by [Check] shows a negative value, the value of
    one of the five parameters, and its text names that parameter and the
    law ([Info]); the status and the error are independent of the
    geometry and the process info. *)
Theorem Check_error_shape (rMaterialProperties : Properties)
    (rElementGeometry : GeometryType) (rCurrentProcessInfo : ProcessInfo)
    (e : Exception) :
  Check rMaterialProperties rElementGeometry rCurrentProcessInfo = Throws e ->
  shown e < 0 /\
  (exists v,
     shown e = rMaterialProperties v /\
     what e = ("Incorrect or missing " ++ variable_name v
               ++ " provided in process info for " ++ Info ++ ": ")%string) /\
  (forall g p, Check rMaterialProperties g p = Throws e).
Proof.
  intros Hthrow.
  assert (Hany : forall g p, Check rMaterialProperties g p = Throws e)
    by (intros g p; exact Hthrow).
  destruct (Check_cases rMaterialProperties rElementGeometry rCurrentProcessInfo)
    as [[Hret _] | (v & Hv & Hneg)]; [congruence |].
  assert (He : e = {| what := error_text v; shown := rMaterialProperties v |})
    by congruence.
  split; [rewrite He; exact Hneg |].
  split; [| exact Hany].
  exists v. rewrite He. split; [reflexivity | destruct v; reflexivity].
Qed.

End CheckExtras.

(** ** Worked cases for the further properties *)

Lemma strain_rate_shear : equivalent_strain_rate 0 0 1 = Ok 2.
Proof.
  rewrite equivalent_strain_rate_defined. f_equal.
  replace (2 * 0 * 0 + 2 * 0 * 0 + 4 * 1 * 1) with (2 * 2) by lra.
  apply sqrt_square. lra.
Qed.

Lemma Check_throws_sample :
  @Check spec_host (properties_of 1 1 (-2) 1 1) tt tt
  = Throws {| what := error_text FLOW_INDEX; shown := -2 |}.
Proof.
  unfold Check, KRATOS_ERROR_IF.
  rewrite (Rltb_false (properties_of 1 1 (-2) 1 1 DYNAMIC_VISCOSITY) 0) by (cbn; lra).
  rewrite (Rltb_false (properties_of 1 1 (-2) 1 1 YIELD_SHEAR) 0) by (cbn; lra).
  rewrite (Rltb_true (properties_of 1 1 (-2) 1 1 FLOW_INDEX) 0) by (cbn; lra).
  reflexivity.
Qed.

Lemma store_of_first (strain stress : list double) (tangent : bool)
    (props : Properties) :
  vectors (store_of strain stress) !! GetStrainVector (call_in_place tangent props)
  = Some strain.
Proof. apply lookup_insert_eq. Qed.

Lemma store_of_matrix_ready_in_place (tangent : bool) (props : Properties)
    (strain stress : list double) :
  matrix_ready (call_in_place tangent props) (store_of strain stress).
Proof. intros _. exists []. apply lookup_insert_eq. Qed.

(** Shear at rate 2 with parameters 1, 1, 1, 1: the viscosity lies
    between the power-law term and that term plus 1 * 1. *)
Lemma yield_part_capped_shear :
  exists mu,
    effective_dynamic_viscosity (call_on false (properties_of 1 1 1 1 0)) 0 0 1
    = Ok mu /\
    1 * Rpower 2 (1 - 1) <= mu <= 1 * Rpower 2 (1 - 1) + 1 * 1.
Proof.
  apply (yield_part_capped (call_on false (properties_of 1 1 1 1 0)) 0 0 1 2);
    [cbn; lra | cbn; lra | exact strain_rate_shear | lra].
Defined.

(** A Newtonian fluid of viscosity 3 in shear has viscosity 3. *)
Lemma newtonian_shear :
  effective_dynamic_viscosity (call_on false (properties_of 3 0 1 2 0)) 0 0 1
  = Ok 3.
Proof.
  apply (proj1 (newtonian_viscosity (call_on false (properties_of 3 0 1 2 0))
                  0 0 1 2 eq_refl eq_refl strain_rate_shear)).
  lra.
Defined.

(** Yield shear 5 with adaptive exponent 0 leaves the power-law term. *)
Lemma no_regularization_shear :
  effective_dynamic_viscosity (call_on false (properties_of 3 5 2 0 0)) 0 0 1
  = Ok (3 * Rpower 2 (2 - 1)).
Proof.
  apply (proj1 (no_regularization_no_yield
                  (call_on false (properties_of 3 5 2 0 0))
                  0 0 1 2 eq_refl strain_rate_shear)).
  lra.
Defined.

(** An in-place call on the buffer (3, 0, 0). *)
Lemma call_in_place_uniaxial :
  exists mu m',
    effective_dynamic_viscosity (call_in_place true (properties_of 1 0 1 1 0)) 3 0 0
    = Ok mu /\
    CalculateMaterialResponseCauchy (H := spec_host)
      (call_in_place true (properties_of 1 0 1 1 0))
      (store_of [3; 0; 0] [0; 0; 0]) = Ok (tt, m') /\
    vectors m' !! 1%positive
    = Some [2 * mu * (3 - (3 + 0) / 3); 2 * mu * (0 - (3 + 0) / 3); 2 * mu * 0].
Proof.
  apply (call_in_place_stress (H := spec_host)
           (call_in_place true (properties_of 1 0 1 1 0))
           (store_of [3; 0; 0] [0; 0; 0]) 3 0 0 [] eq_refl
           (store_of_first _ _ _ _) (store_of_matrix_ready_in_place _ _ _ _)).
Defined.

(** Two calls in a row on separate buffers. *)
Lemma call_twice_shear :
  exists m1 m2,
    CalculateMaterialResponseCauchy (H := spec_host)
      (call_on false (properties_of 1 0 1 1 0))
      (store_of [0; 0; 1] [7; 7; 7]) = Ok (tt, m1) /\
    CalculateMaterialResponseCauchy (H := spec_host)
      (call_on false (properties_of 1 0 1 1 0)) m1 = Ok (tt, m2) /\
    m2 = m1.
Proof.
  destruct (call_twice (H := spec_host)
              (call_on false (properties_of 1 0 1 1 0))
              (store_of [0; 0; 1] [7; 7; 7]) 0 0 1 7 7 7 [] []
              ltac:(discriminate)
              (store_of_strain _ _) (store_of_stress _ _)
              (store_of_matrix_ready _ _ _ _))
    as (m1 & m2 & H1 & H2 & _ & Hsame).
  exists m1, m2. split; [exact H1 |]. split; [exact H2 | apply Hsame; reflexivity].
Defined.

(** What the stress buffer held, (7, 7, 7) or (0, 0, 0), makes no
    difference. *)
Lemma stress_vector_not_read_shear :
  CalculateMaterialResponseCauchy (H := spec_host)
    (call_on false (properties_of 1 0 1 1 0))
    {| vectors := <[2%positive := [0; 0; 0]]> (vectors (store_of [0; 0; 1] [7; 7; 7]));
       matrices := matrices (store_of [0; 0; 1] [7; 7; 7]) |}
  = CalculateMaterialResponseCauchy (H := spec_host)
      (call_on false (properties_of 1 0 1 1 0))
      (store_of [0; 0; 1] [7; 7; 7]).
Proof.
  apply (stress_vector_not_read (H := spec_host)
           (call_on false (properties_of 1 0 1 1 0))
           (store_of [0; 0; 1] [7; 7; 7]) 0 0 1 7 7 7 0 0 0 [] []
           ltac:(discriminate) (store_of_strain _ _) (store_of_stress _ _)).
Defined.

(** Buffers of four entries: the fourth stress entry, 8, stays. *)
Lemma call_footprint_four :
  exists m' sigma,
    CalculateMaterialResponseCauchy (H := spec_host)
      (call_on false (properties_of 1 0 1 1 0))
      (store_of [0; 0; 1; 9] [7; 7; 7; 8]) = Ok (tt, m') /\
    vectors m' !! 2%positive = Some (sigma ++ [8]) /\
    length sigma = 3%nat.
Proof.
  destruct (call_footprint (H := spec_host)
              (call_on false (properties_of 1 0 1 1 0))
              (store_of [0; 0; 1; 9] [7; 7; 7; 8]) [0; 0; 1; 9] [7; 7; 7; 8]
              (store_of_strain _ _) (store_of_stress _ _)
              ltac:(unfold GetStrainSize; cbn; lia)
              ltac:(unfold GetStrainSize; cbn; lia)
              (store_of_matrix_ready _ _ _ _))
    as (m' & sigma & e0 & e1 & e2 & mu & Hrun & Hvec & Hlen & _).
  exists m', sigma. split; [exact Hrun |]. split; [exact Hvec | exact Hlen].
Defined.

(** The strains (3, 0, 0) and (-3, -0, -0). *)
Lemma stress_odd_uniaxial :
  exists m' n' x y z,
    CalculateMaterialResponseCauchy (H := spec_host)
      (call_on false (properties_of 1 0 1 1 0))
      (store_of [3; 0; 0] [0; 0; 0]) = Ok (tt, m') /\
    CalculateMaterialResponseCauchy (H := spec_host)
      (call_on false (properties_of 1 0 1 1 0))
      (store_of [Ropp 3; Ropp 0; Ropp 0] [0; 0; 0]) = Ok (tt, n') /\
    vectors m' !! 2%positive = Some [x; y; z] /\
    vectors n' !! 2%positive = Some [Ropp x; Ropp y; Ropp z].
Proof.
  apply (stress_odd (H := spec_host)
           (call_on false (properties_of 1 0 1 1 0))
           (store_of [3; 0; 0] [0; 0; 0])
           (store_of [Ropp 3; Ropp 0; Ropp 0] [0; 0; 0])
           3 0 0 0 0 0 0 0 0 [] [] [] []
           (store_of_strain _ _) (store_of_strain _ _)
           (store_of_stress _ _) (store_of_stress _ _)
           (store_of_matrix_ready _ _ _ _) (store_of_matrix_ready _ _ _ _)).
Defined.


(** The trace-free strain (1, -1, 2). *)
Lemma stress_trace_free_sample :
  exists mu m',
    effective_dynamic_viscosity (call_on false (properties_of 1 0 1 1 0)) 1 (-1) 2
    = Ok mu /\
    CalculateMaterialResponseCauchy (H := spec_host)
      (call_on false (properties_of 1 0 1 1 0))
      (store_of [1; -1; 2] [0; 0; 0]) = Ok (tt, m') /\
    vectors m' !! 2%positive = Some [2 * mu * 1; 2 * mu * (-1); 2 * mu * 2] /\
    2 * mu * 1 + 2 * mu * (-1) = 0.
Proof.
  apply (stress_trace_free (H := spec_host)
           (call_on false (properties_of 1 0 1 1 0))
           (store_of [1; -1; 2] [0; 0; 0]) 1 (-1) 2 0 0 0 [] []
           ltac:(lra)
           (store_of_strain _ _) (store_of_stress _ _)
           (store_of_matrix_ready _ _ _ _)).
Defined.

(** Bulk modulus 0 or 5: the same call. *)
Lemma bulk_modulus_not_read_sample :
  CalculateMaterialResponseCauchy (H := spec_host)
    (call_on false (properties_of 1 0 1 1 0)) (store_of [0; 0; 1] [7; 7; 7])
  = CalculateMaterialResponseCauchy (H := spec_host)
      (call_on false (properties_of 1 0 1 1 5)) (store_of [0; 0; 1] [7; 7; 7]).
Proof.
  apply (bulk_modulus_not_read (H := spec_host) (fun _ => false)
           (properties_of 1 0 1 1 0) (properties_of 1 0 1 1 5)
           1%positive 2%positive 3%positive (store_of [0; 0; 1] [7; 7; 7])).
  intros v Hv. destruct v; [reflexivity .. | contradiction].
Defined.

(** A flow index of -2 is reported with its value. *)
Lemma Check_error_shape_sample :
  shown {| what := error_text FLOW_INDEX; shown := -2 |} < 0 /\
  exists v,
    -2 = properties_of 1 1 (-2) 1 1 v /\
    error_text FLOW_INDEX
    = ("Incorrect or missing " ++ variable_name v
       ++ " provided in process info for " ++ Info ++ ": ")%string.
Proof.
  destruct (Check_error_shape (H := spec_host) (properties_of 1 1 (-2) 1 1) tt tt
              {| what := error_text FLOW_INDEX; shown := -2 |}
              Check_throws_sample)
    as (Hneg & Hshape & _).
  split; [exact Hneg | exact Hshape].
Defined.
